(** * promhttp over fasthttp: a shallow embedding of [fasthttp.go]

    The development follows [prometheus/promhttp/fasthttp.go]:
    [FastHttpHandlerFor] gathers the metric families of a registry,
    negotiates a content type and a content encoding from the request
    headers, encodes every family into a pooled buffer (through a gzip
    writer when the client accepts it), and commits the buffer to the
    response, applying the configured error handling on the way.

    Go strings are byte strings; they are modelled by [string] (a list of
    8-bit [ascii]).  Buffer contents are [list byte]. *)

From Stdlib Require Import ZArith NArith Lia.
From Stdlib.Strings Require Import Ascii Byte.
From stdpp Require Import base strings list gmap pretty.

Local Open Scope Z_scope.

(** ** The parts of Go's [strings] package the handler uses *)

Module strings.

(** [strings.HasPrefix(s, prefix)]. *)
Fixpoint HasPrefix (s prefix : string) {struct prefix} : bool :=
  match prefix, s with
  | EmptyString, _ => true
  | String p prefix', String c s' =>
      if Ascii.eqb c p then HasPrefix s' prefix' else false
  | String _ _, EmptyString => false
  end.

(** [strings.Split(s, sep)] for a one-byte separator: the substrings
    between the separators, in order.  The empty string splits into one
    empty substring. *)
Fixpoint Split (s : string) (sep : ascii) : list string :=
  match s with
  | EmptyString => [EmptyString]
  | String c s' =>
      if Ascii.eqb c sep then EmptyString :: Split s' sep
      else match Split s' sep with
           | part :: parts => String c part :: parts
           | [] => [String c EmptyString]
           end
  end.

Definition bytes_to_string (l : list N) : string :=
  foldr (fun n s => String (ascii_of_N n) s) EmptyString l.

(** The code points for which [unicode.IsSpace] holds, each as its UTF-8
    encoding: TAB, LF, VT, FF, CR, SPACE, U+0085, U+00A0, U+1680,
    U+2000..U+200A, U+2028, U+2029, U+202F, U+205F, U+3000. *)
Definition white_space : list string :=
  map bytes_to_string
    ([ [9]; [10]; [11]; [12]; [13]; [32];
       [194; 133]; [194; 160]; [225; 154; 128] ]
     ++ map (fun n => [226; 128; n])
            [128; 129; 130; 131; 132; 133; 134; 135; 136; 137; 138]
     ++ [ [226; 128; 168]; [226; 128; 169]; [226; 128; 175];
          [226; 129; 159]; [227; 128; 128] ])%N.

(** [strip p s] is the rest of [s] after its prefix [p], if [p] is one. *)
Fixpoint strip (p s : string) : option string :=
  match p, s with
  | EmptyString, _ => Some s
  | String a p', String c s' =>
      if Ascii.eqb c a then strip p' s' else None
  | String _ _, EmptyString => None
  end.

(** The rest of [s] after one leading sequence out of [ps], if any. *)
Fixpoint strip_any (ps : list string) (s : string) : option string :=
  match ps with
  | [] => None
  | p :: ps' =>
      match strip p s with
      | Some s' => Some s'
      | None => strip_any ps' s
      end
  end.

(** Removes leading sequences out of [ps] as long as there is one; [n]
    bounds the number of removals, and the length of the string is
    enough since every removal takes at least one byte away. *)
Fixpoint trim_left (n : nat) (ps : list string) (s : string) : string :=
  match n with
  | O => s
  | S n' =>
      match strip_any ps s with
      | Some s' => trim_left n' ps s'
      | None => s
      end
  end.

Definition TrimLeftSpace (s : string) : string :=
  trim_left (String.length s) white_space s.

(** Trailing white space: the last code point of a string is a space
    exactly when the string ends with the encoding of one, so the
    string is trimmed on the left in reverse. *)
Definition TrimRightSpace (s : string) : string :=
  String.rev
    (trim_left (String.length s) (map String.rev white_space) (String.rev s)).

(** [strings.TrimSpace(s)]: [s] without leading and trailing white
    space, as defined by Unicode. *)
Definition TrimSpace (s : string) : string :=
  TrimRightSpace (TrimLeftSpace s).

End strings.

(** ** [net/textproto] and [net/http]: canonical header keys, [http.Header] *)

Module textproto.

Definition in_range (lo hi : N) (c : ascii) : bool :=
  (lo <=? N_of_ascii c)%N && (N_of_ascii c <=? hi)%N.

(** [validHeaderFieldByte]: the token characters of RFC 7230. *)
Definition validHeaderFieldByte (c : ascii) : bool :=
  in_range 48 57 c || in_range 65 90 c || in_range 97 122 c
  || bool_decide (N_of_ascii c ∈
       [33; 35; 36; 37; 38; 39; 42; 43; 45; 46; 94; 95; 96; 124; 126]%N).

Definition toLower : N := 32.

(** The loop of [canonicalMIMEHeaderKey]: the first letter and every
    letter after a hyphen in upper case, the others in lower case. *)
Fixpoint canonicalize (upper : bool) (a : string) : string :=
  match a with
  | EmptyString => EmptyString
  | String c a' =>
      let c' :=
        if upper && in_range 97 122 c
        then ascii_of_N (N_of_ascii c - toLower)
        else if negb upper && in_range 65 90 c
        then ascii_of_N (N_of_ascii c + toLower)
        else c in
      String c' (canonicalize (Ascii.eqb c' "-"%char) a')
  end.

Fixpoint all_valid (s : string) : bool :=
  match s with
  | EmptyString => true
  | String c s' => validHeaderFieldByte c && all_valid s'
  end.

(** [textproto.CanonicalMIMEHeaderKey(s)]: a key that holds a byte
    which is not valid in a header field name is returned as it is. *)
Definition CanonicalMIMEHeaderKey (s : string) : string :=
  if all_valid s then canonicalize true s else s.

End textproto.

Module http.

(** [http.Header] is [map[string][]string]. *)
Abbreviation Header := (gmap string (list string)).

(** [make(http.Header)]. *)
Definition make_Header : Header := ∅.

(** [h.Set(key, value)]: the entry of the canonical key is replaced by
    the single value. *)
Definition Header_Set (h : Header) (key value : string) : Header :=
  <[textproto.CanonicalMIMEHeaderKey key := [value]]> h.

Definition StatusInternalServerError : Z := 500.

End http.

(** ** [hash/crc32] and [compress/gzip] *)

Definition byte_of_Z (z : Z) : byte :=
  default x00 (Byte.of_N (Z.to_N (z mod 256))).

Definition Z_of_byte (b : byte) : Z := Z.of_N (Byte.to_N b).

Module crc32.

Definition IEEE : Z := 0xedb88320.

(** One round of [simpleMakeTable]: [(crc >> 1) ^ poly] when the lowest
    bit is set, else [crc >> 1]. *)
Definition shift1 (crc : Z) : Z :=
  if Z.testbit crc 0 then Z.lxor (Z.shiftr crc 1) IEEE else Z.shiftr crc 1.

(** The entry [i] of the table [simpleMakeTable(IEEE)]: eight rounds. *)
Definition IEEETable (i : Z) : Z := Nat.iter 8 shift1 i.

(** [simpleUpdate]: [crc = tab[byte(crc)^v] ^ (crc >> 8)] for every
    byte [v], between two complements. *)
Definition Update (crc : Z) (p : list byte) : Z :=
  Z.lxor
    (fold_left
       (fun crc v =>
          Z.lxor (IEEETable (Z.lxor (Z.land crc 0xff) (Z_of_byte v)))
                 (Z.shiftr crc 8))
       p (Z.lxor crc 0xffffffff))
    0xffffffff.

End crc32.

Module gzip.

Section Compressor.

(** The DEFLATE stream [compress/flate] produces for a plain text.
    The compressor is not part of the handler; every statement below
    holds for whatever it produces. *)
Variable deflate : list byte → list byte.

(** The fields of [gzip.Writer] the handler's calls depend on.  The
    flate compressor is represented by the plain text it has been
    given: its output reaches the underlying writer at [Close] (the
    real one may hand parts of the same stream over earlier; the
    handler reads the underlying buffer after [Close] only). *)
Record Writer := mkWriter {
  wroteHeader : bool;
  closed : bool;
  digest : Z;                 (* uint32, CRC-32 of the plain text *)
  size : Z;                   (* uint32, length of the plain text *)
  compressor : list byte
}.

(** State after [gzip.NewWriter(w)]. *)
Definition NewWriter : Writer :=
  mkWriter false false 0 0 [].

(** The ten bytes [Write] sends first: magic 1f 8b, method 8
    (deflate), no flags, no modification time, no extra flags,
    operating system 255 (unknown). *)
Definition header : list byte :=
  [x1f; x8b; x08; x00; x00; x00; x00; x00; x00; xff].

(** [binary.LittleEndian.PutUint32]. *)
Definition PutUint32 (v : Z) : list byte :=
  [ byte_of_Z v; byte_of_Z (Z.shiftr v 8);
    byte_of_Z (Z.shiftr v 16); byte_of_Z (Z.shiftr v 24) ].

(** [z.Write(p)]: the new state and the bytes sent to the underlying
    writer. *)
Definition Write (z : Writer) (p : list byte) : Writer * list byte :=
  ( mkWriter true (closed z)
      (crc32.Update (digest z) p)
      ((size z + Z.of_nat (length p)) mod 2 ^ 32)
      (compressor z ++ p),
    if wroteHeader z then [] else header ).

(** [z.Close()]: writes the header if nothing was written yet, then
    the rest of the compressed stream, then checksum and size. *)
Definition Close (z : Writer) : Writer * list byte :=
  if closed z then (z, [])
  else
    let '(z1, hdr) := if wroteHeader z then (z, []) else Write z [] in
    ( mkWriter (wroteHeader z1) true (digest z1) (size z1) (compressor z1),
      hdr ++ deflate (compressor z1)
          ++ PutUint32 (digest z1) ++ PutUint32 (size z1) ).

End Compressor.

End gzip.

(** ** [fasthttp]: the request as the handler reads it *)

Module fasthttp.

(** The headers of the request, in the order [VisitAll] visits them.
    A name may occur more than once. *)
Abbreviation RequestHeader := (list (string * string)).

(** [h.VisitAll(f)]: [f] is called for every header, in order; the
    variable the callback updates is threaded through. *)
Definition VisitAll {A : Type}
    (h : RequestHeader) (f : string → string → A → A) (acc : A) : A :=
  fold_left (fun acc kv => f kv.1 kv.2 acc) h acc.

(** [h.Peek(key)]: the value of the first header named [key], and the
    empty byte string when there is none. *)
Fixpoint Peek (h : RequestHeader) (key : string) : string :=
  match h with
  | [] => EmptyString
  | (k, v) :: h' => if bool_decide (k = key) then v else Peek h' key
  end.

Record Request := mkRequest { Header : RequestHeader }.

Record RequestCtx := mkRequestCtx { Request_ : Request }.

End fasthttp.

(** ** Declarations of package [promhttp] the handler relies on *)

(** The line feed of the messages. *)
Definition nl : string := String "010"%char EmptyString.

(** A Go [error] is represented by the text its [Error()] method
    returns; [nil] is [None]. *)
Definition error := string.

(** [expfmt.Format] is a string type. *)
Definition Format := string.

(** Modelled from the spec: the declaration of [HandlerErrorHandling] is
    in [http.go], which is not among the sources.  The three error
    handling policies: respond with an HTTP error, continue and suppress,
    abort with a fault. *)
Inductive HandlerErrorHandling :=
  | HTTPErrorOnError
  | ContinueOnError
  | PanicOnError.

(** Modelled from the spec: [HandlerOpts] is declared in [http.go].
    [ErrorLog] tells whether a log sink is configured
    ([opts.ErrorLog != nil]); the calls of its [Println] are recorded in
    the trace. *)
Record HandlerOpts := mkHandlerOpts {
  ErrorLog : bool;
  ErrorHandling : HandlerErrorHandling;
  DisableCompression : bool
}.

(** Modelled from the spec: the header names are constants of [http.go]. *)
Definition contentTypeHeader : string := "Content-Type".
Definition contentLengthHeader : string := "Content-Length".
Definition contentEncodingHeader : string := "Content-Encoding".
Definition acceptEncodingHeader : string := "Accept-Encoding".

(** The [io.Writer] values of the handler: the pooled [*bytes.Buffer],
    or a [*gzip.Writer] on top of a writer. *)
Inductive Writer :=
  | BufferWriter
  | GzipWriter (w : Writer).

(** [writer.(io.Closer)]: a [*gzip.Writer] has a [Close] method, a
    [*bytes.Buffer] has none. *)
Definition is_Closer (w : Writer) : bool :=
  match w with
  | BufferWriter => false
  | GzipWriter _ => true
  end.

(** [decorateFastHttpWriter] (lines 102 to 115). *)
Definition decorateFastHttpWriter
    (ctx : fasthttp.RequestCtx) (writer : Writer) (compressionDisabled : bool)
    : Writer * string :=
  if compressionDisabled then (writer, EmptyString)
  else
    let header :=
      fasthttp.Peek (fasthttp.Header (fasthttp.Request_ ctx))
                    acceptEncodingHeader in
    let parts := strings.Split header ","%char in
    (fix range (parts : list string) : Writer * string :=
       match parts with
       | [] => (writer, EmptyString)
       | part :: parts' =>
           let part := strings.TrimSpace part in
           if String.eqb part "gzip" || strings.HasPrefix part "gzip;"
           then (GzipWriter writer, "gzip")
           else range parts'
       end) parts.

(** ** The handler *)

Section Handler.

(** The collaborators of the handler that are not part of it: the
    metric families of the registry, content negotiation and the
    encoders of [expfmt], and the compressor behind [compress/gzip]. *)
Variable MetricFamily : Type.
Variable Negotiate : http.Header → Format.

(** [encode format mf]: what the encoder of [format] writes for the
    family, and the error [Encode] returns (an encoder may have written
    a part of the family before it fails). *)
Variable encode : Format → MetricFamily → list byte * option error.
Variable deflate : list byte → list byte.

(** [prometheus.Gatherer]: what the one call of [Gather] returns. *)
Record Gatherer := mkGatherer {
  Gather : list MetricFamily * option error
}.

(** What the handler does to its surroundings, in order. *)
Inductive Event :=
  | Gathered (err : option error)            (* reg.Gather() *)
  | Println (msg : string) (err : error)     (* opts.ErrorLog.Println *)
  | CtxError (msg : string) (statusCode : Z) (* ctx.Error *)
  | GetBuf                                   (* getBuf() *)
  | GiveBuf                                  (* giveBuf(buf) *)
  | Encoded (mf : MetricFamily) (err : option error) (* enc.Encode(mf) *)
  | Closed                                   (* closer.Close() *)
  | BufLen (n : nat)                         (* buf.Len() *)
  | HeaderSet (key value : string)           (* ctx.Response.Header.Set *)
  | CtxWrite (p : list byte).                (* ctx.Write *)

(** The mutable state of one call: the trace of events so far, the
    contents of the pooled buffer [buf], and the state of the gzip
    writer of the request (the handler creates at most one). *)
Record World := mkWorld {
  trace : list Event;
  buf : list byte;
  zw : gzip.Writer
}.

Definition start : World := mkWorld [] [] gzip.NewWriter.

(** How a statement ends: it goes on to the next one, the function
    returns, or it panics with a value. *)
Inductive Outcome (A : Type) :=
  | Next (a : A)
  | Return
  | Panic (v : error).
Global Arguments Next {A} a.
Global Arguments Return {A}.
Global Arguments Panic {A} v.

Definition M (A : Type) : Type := World → Outcome A * World.

Global Instance M_ret : MRet M := λ A a σ, (Next a, σ).
Global Instance M_bind : MBind M := λ A B f m σ,
  match m σ with
  | (Next a, σ') => f a σ'
  | (Return, σ') => (Return, σ')
  | (Panic v, σ') => (Panic v, σ')
  end.

Definition return_ {A : Type} : M A := λ σ, (Return, σ).
Definition panic {A : Type} (v : error) : M A := λ σ, (Panic v, σ).

(** [defer d] in front of [body]: [d] runs when [body] is left, however
    it is left. *)
Definition defer {A : Type} (d : World → World) (body : M A) : M A :=
  λ σ, let '(o, σ') := body σ in (o, d σ').

Definition modify (f : World → World) : M unit := λ σ, (Next (), f σ).

Definition emit (e : Event) : M unit :=
  modify (λ σ, mkWorld (trace σ ++ [e]) (buf σ) (zw σ)).

Definition when (b : bool) (m : M unit) : M unit :=
  if b then m else mret ().

(** [buf.Write(p)]. *)
Definition buf_Write (p : list byte) (σ : World) : World :=
  mkWorld (trace σ) (buf σ ++ p) (zw σ).

(** [writer.Write(p)]. *)
Fixpoint Write (writer : Writer) (p : list byte) (σ : World) : World :=
  match writer with
  | BufferWriter => buf_Write p σ
  | GzipWriter w =>
      let '(z, out) := gzip.Write (zw σ) p in
      Write w out (mkWorld (trace σ) (buf σ) z)
  end.

(** [closer.Close()]. *)
Definition Close (writer : Writer) : M unit :=
  emit Closed;;
  modify (λ σ, match writer with
               | BufferWriter => σ
               | GzipWriter w =>
                   let '(z, out) := gzip.Close deflate (zw σ) in
                   Write w out (mkWorld (trace σ) (buf σ) z)
               end).

(** [buf.Len()] and [buf.Bytes()]. *)
Definition buf_Len : M nat :=
  λ σ, (Next (length (buf σ)),
        mkWorld (trace σ ++ [BufLen (length (buf σ))]) (buf σ) (zw σ)).
Definition buf_Bytes : M (list byte) := λ σ, (Next (buf σ), σ).

(** Modelled from the spec: [getBuf] and [giveBuf] are in [http.go].
    [getBuf] hands out an empty buffer of the pool, [giveBuf] clears the
    buffer and returns it to the pool. *)
Definition getBuf : M unit :=
  modify (λ σ, mkWorld (trace σ ++ [GetBuf]) [] (zw σ)).
Definition giveBuf (σ : World) : World :=
  mkWorld (trace σ ++ [GiveBuf]) [] (zw σ).

(** [fmt.Sprint] of an [int] that is not negative. *)
Definition Sprint (n : nat) : string := pretty n.

(** The writes of an encoder with the output [out]; an encoder without
    output does not call [Write]. *)
Definition write_out (writer : Writer) (out : list byte) (σ : World)
    : World :=
  match out with
  | [] => σ
  | _ => Write writer out σ
  end.

(** [enc.Encode(mf)] for the encoder [expfmt.NewEncoder(writer,
    contentType)]. *)
Definition Encode (writer : Writer) (contentType : Format)
    (mf : MetricFamily) : M (option error) :=
  let '(out, err) := encode contentType mf in
  modify (write_out writer out);;
  emit (Encoded mf err);;
  mret err.

(** The loop over the gathered families (lines 66 to 82); [lastErr] is
    the variable of that name. *)
Fixpoint encode_families (ctx : fasthttp.RequestCtx) (opts : HandlerOpts)
    (writer : Writer) (contentType : Format)
    (mfs : list MetricFamily) (lastErr : option error) : M (option error) :=
  match mfs with
  | [] => mret lastErr
  | mf :: mfs' =>
      err ← Encode writer contentType mf;
      match err with
      | Some err =>
          when (ErrorLog opts)
            (emit (Println "error encoding metric family:" err));;
          match ErrorHandling opts with
          | PanicOnError => panic err
          | ContinueOnError => mret () (* Handled later. *)
          | HTTPErrorOnError =>
              emit (CtxError
                      ("An error has occurred during metrics encoding:"
                         +:+ nl +:+ nl +:+ err)
                      http.StatusInternalServerError);;
              return_
          end;;
          encode_families ctx opts writer contentType mfs' (Some err)
      | None => encode_families ctx opts writer contentType mfs' lastErr
      end
  end.

(** The conversion of the fasthttp header to a [net/http] header (lines
    51 to 58). *)
Definition convert_header (ctx : fasthttp.RequestCtx) : http.Header :=
  fasthttp.VisitAll (fasthttp.Header (fasthttp.Request_ ctx))
    (λ key value header, http.Header_Set header key value)
    http.make_Header.

(** The first part of [FastHttpHandlerFor] (lines 32 to 49): the call
    of [Gather] and the handling of its error.  It yields the gathered
    families. *)
Definition gather_metrics (reg : Gatherer) (opts : HandlerOpts)
    : M (list MetricFamily) :=
  let '(mfs, err) := Gather reg in
  emit (Gathered err);;
  match err with
  | Some err =>
      when (ErrorLog opts) (emit (Println "error gathering metrics:" err));;
      match ErrorHandling opts with
      | PanicOnError => panic err
      | ContinueOnError =>
          if bool_decide (length mfs = 0%nat) then
            emit (CtxError
                    ("No metrics gathered, last error:" +:+ nl +:+ nl +:+ err)
                    http.StatusInternalServerError);;
            return_
          else mret ()
      | HTTPErrorOnError =>
          emit (CtxError
                  ("An error has occurred during metrics gathering:"
                     +:+ nl +:+ nl +:+ err)
                  http.StatusInternalServerError);;
          return_
      end
  | None => mret ()
  end;;
  mret mfs.

(** The last part of [FastHttpHandlerFor], after the loop (lines 83 to
    95): the close of the writer, the check for an empty buffer after
    errors, and the commit of the response. *)
Definition commit_response (contentType : Format) (writer : Writer)
    (encoding : string) (lastErr : option error) : M unit :=
  when (is_Closer writer) (Close writer);;
  match lastErr with
  | Some lastErr =>
      n ← buf_Len;
      if bool_decide (n = 0%nat) then
        emit (CtxError
                ("No metrics encoded, last error:" +:+ nl +:+ nl +:+ lastErr)
                http.StatusInternalServerError);;
        return_
      else mret ()
  | None => mret ()
  end;;
  emit (HeaderSet contentTypeHeader contentType);;
  n ← buf_Len;
  emit (HeaderSet contentLengthHeader (Sprint n));;
  when (negb (String.eqb encoding ""))
    (emit (HeaderSet contentEncodingHeader encoding));;
  p ← buf_Bytes;
  emit (CtxWrite p).

(** [FastHttpHandlerFor] (lines 30 to 97), with its three parts above. *)
Definition FastHttpHandlerFor (ctx : fasthttp.RequestCtx) (reg : Gatherer)
    (opts : HandlerOpts) : M unit :=
  mfs ← gather_metrics reg opts;
  let header := convert_header ctx in
  let contentType := Negotiate header in
  getBuf;;
  defer giveBuf (
    let '(writer, encoding) :=
      decorateFastHttpWriter ctx BufferWriter (DisableCompression opts) in
    lastErr ← encode_families ctx opts writer contentType mfs None;
    commit_response contentType writer encoding lastErr).

(** One call of the handler, from the initial state. *)
Definition serve (ctx : fasthttp.RequestCtx) (reg : Gatherer)
    (opts : HandlerOpts) : Outcome unit * World :=
  FastHttpHandlerFor ctx reg opts start.

(** [FastHttpHandler]: the handler for the default gatherer with the
    default options. *)
Definition FastHttpHandler (DefaultGatherer : Gatherer)
    (ctx : fasthttp.RequestCtx) : M unit :=
  FastHttpHandlerFor ctx DefaultGatherer
    (mkHandlerOpts false HTTPErrorOnError false).

End Handler.

Arguments mkGatherer {MetricFamily} _.
Arguments Gather {MetricFamily} _.
Arguments Gathered {MetricFamily} _.
Arguments Println {MetricFamily} _ _.
Arguments CtxError {MetricFamily} _ _.
Arguments GetBuf {MetricFamily}.
Arguments GiveBuf {MetricFamily}.
Arguments Encoded {MetricFamily} _ _.
Arguments Closed {MetricFamily}.
Arguments BufLen {MetricFamily} _.
Arguments HeaderSet {MetricFamily} _ _.
Arguments CtxWrite {MetricFamily} _.
Arguments mkWorld {MetricFamily} _ _ _.
Arguments trace {MetricFamily} _.
Arguments buf {MetricFamily} _.
Arguments zw {MetricFamily} _.
Arguments start {MetricFamily}.
Arguments serve {MetricFamily} _ _ _ _ _ _.
Arguments FastHttpHandlerFor {MetricFamily} _ _ _ _ _ _ _.
Arguments FastHttpHandler {MetricFamily} _ _ _ _ _ _.
Arguments encode_families {MetricFamily} _ _ _ _ _ _ _ _.
Arguments gather_metrics {MetricFamily} _ _ _.
Arguments commit_response {MetricFamily} _ _ _ _ _ _.
Arguments Encode {MetricFamily} _ _ _ _ _.
Arguments Write {MetricFamily} _ _ _.
Arguments when {MetricFamily} _ _ _.
Arguments return_ {MetricFamily A} _.
Arguments panic {MetricFamily A} _ _.
Arguments defer {MetricFamily A} _ _ _.
Arguments write_out {MetricFamily} _ _ _.
Arguments Close {MetricFamily} _ _.
Arguments giveBuf {MetricFamily} _.
Arguments getBuf {MetricFamily}.
Arguments emit {MetricFamily} _.
Arguments modify {MetricFamily} _.
Arguments buf_Len {MetricFamily}.
Arguments buf_Bytes {MetricFamily}.

(** ** What a trace shows *)

Section Observations.

Context {MetricFamily : Type}.

Implicit Types (e : Event MetricFamily) (tr : list (Event MetricFamily)).

(** The calls on the response: [ctx.Error], [ctx.Response.Header.Set]
    and [ctx.Write]. *)
Definition is_responder e : bool :=
  match e with
  | CtxError _ _ | HeaderSet _ _ | CtxWrite _ => true
  | _ => false
  end.

Definition responder_ops tr : list (Event MetricFamily) :=
  List.filter is_responder tr.

(** The calls on the buffer pool. *)
Definition is_pool e : bool :=
  match e with
  | GetBuf | GiveBuf => true
  | _ => false
  end.

Definition pool_ops tr : list (Event MetricFamily) := List.filter is_pool tr.

(** The reads and the close of the buffer and its writer, and the calls
    on the response: what the commit step consists of. *)
Definition is_commit e : bool :=
  match e with
  | Closed | BufLen _ | HeaderSet _ _ | CtxWrite _ => true
  | _ => false
  end.

(** The lines handed to the log sink, as pairs of prefix and error. *)
Definition log_lines tr : list (string * error) :=
  omap (λ e, match e with
             | Println msg err => Some (msg, err)
             | _ => None
             end) tr.

(** The errors [Gather] and [Encode] returned, in order, each with the
    prefix of its kind. *)
Definition errors_met tr : list (string * error) :=
  omap (λ e, match e with
             | Gathered (Some err) => Some ("error gathering metrics:", err)
             | Encoded _ (Some err) =>
                 Some ("error encoding metric family:", err)
             | _ => None
             end) tr.

(** The families [Encode] was called for, in order. *)
Definition encoded_families tr : list MetricFamily :=
  omap (λ e, match e with
             | Encoded mf _ => Some mf
             | _ => None
             end) tr.

(** The calls on the response that commit the body [body]: the content
    type, the length of the body, the content encoding unless it is
    empty, and the body. *)
Definition success_response (contentType encoding : string)
    (body : list byte) : list (Event MetricFamily) :=
  [ HeaderSet contentTypeHeader contentType;
    HeaderSet contentLengthHeader (Sprint (length body)) ]
  ++ (if String.eqb encoding "" then []
      else [HeaderSet contentEncodingHeader encoding])
  ++ [CtxWrite body].

End Observations.

(** ** The encode loop as a function of its input *)

Section Loop.

Context {MetricFamily : Type}.
Variable encode : Format → MetricFamily → list byte * option error.

(** The plain text the encoders write for a list of families. *)
Definition payload (contentType : Format) (mfs : list MetricFamily)
    : list byte :=
  concat (map (λ mf, (encode contentType mf).1) mfs).

(** The first error [Encode] returns for a list of families. *)
Definition first_encode_error (contentType : Format)
    (mfs : list MetricFamily) : option error :=
  head (omap (λ mf, (encode contentType mf).2) mfs).

(** The last one. *)
Definition last_encode_error (contentType : Format)
    (mfs : list MetricFamily) : option error :=
  last (omap (λ mf, (encode contentType mf).2) mfs).

(** The families the loop gets to: all of them when errors are
    suppressed, else those up to the first that fails. *)
Fixpoint loop_done (opts : HandlerOpts) (contentType : Format)
    (mfs : list MetricFamily) : list MetricFamily :=
  match mfs with
  | [] => []
  | mf :: mfs' =>
      mf :: match (encode contentType mf).2, ErrorHandling opts with
            | Some _, (PanicOnError | HTTPErrorOnError) => []
            | _, _ => loop_done opts contentType mfs'
            end
  end.

(** The events of the loop. *)
Fixpoint loop_events (opts : HandlerOpts) (contentType : Format)
    (mfs : list MetricFamily) : list (Event MetricFamily) :=
  match mfs with
  | [] => []
  | mf :: mfs' =>
      match (encode contentType mf).2 with
      | None => Encoded mf None :: loop_events opts contentType mfs'
      | Some err =>
          Encoded mf (Some err)
          :: (if ErrorLog opts
              then [Println "error encoding metric family:" err] else [])
          ++ match ErrorHandling opts with
             | PanicOnError => []
             | ContinueOnError => loop_events opts contentType mfs'
             | HTTPErrorOnError =>
                 [CtxError
                    ("An error has occurred during metrics encoding:"
                       +:+ nl +:+ nl +:+ err)
                    http.StatusInternalServerError]
             end
      end
  end.

(** How the loop is left, and the value of [lastErr] when it runs to its
    end. *)
Fixpoint loop_outcome (opts : HandlerOpts) (contentType : Format)
    (mfs : list MetricFamily) (lastErr : option error)
    : Outcome (option error) :=
  match mfs with
  | [] => Next lastErr
  | mf :: mfs' =>
      match (encode contentType mf).2 with
      | None => loop_outcome opts contentType mfs' lastErr
      | Some err =>
          match ErrorHandling opts with
          | PanicOnError => Panic err
          | ContinueOnError => loop_outcome opts contentType mfs' (Some err)
          | HTTPErrorOnError => Return
          end
      end
  end.

(** The state after the writes of the encoders for the families. *)
Definition after_writes (writer : Writer) (contentType : Format)
    (mfs : list MetricFamily) (σ : World MetricFamily) : World MetricFamily :=
  fold_left (λ σ mf, write_out writer (encode contentType mf).1 σ) mfs σ.

Definition set_trace (tr : list (Event MetricFamily))
    (σ : World MetricFamily) : World MetricFamily :=
  mkWorld tr (buf σ) (zw σ).

End Loop.

(** The contents of the buffer once the writer has been closed, for the
    plain text written to the writer: the plain text itself without
    compression, else the gzip member around its DEFLATE stream. *)
Definition gzip_member (deflate : list byte → list byte)
    (plain : list byte) : list byte :=
  gzip.header ++ deflate plain
    ++ gzip.PutUint32 (crc32.Update 0 plain)
    ++ gzip.PutUint32 (Z.of_nat (length plain) mod 2 ^ 32).

Definition finalized (deflate : list byte → list byte) (writer : Writer)
    (plain : list byte) : list byte :=
  match writer with
  | BufferWriter => plain
  | GzipWriter _ => gzip_member deflate plain
  end.

(** Whether a part of the header value names gzip: the test of the loop
    of [decorateFastHttpWriter]. *)
Definition names_gzip (part : string) : bool :=
  let part := strings.TrimSpace part in
  String.eqb part "gzip" || strings.HasPrefix part "gzip;".

(** The gzip writer and the buffer below it after the plain text [plain]
    has been written and before [Close]: checksum and size are those of
    the plain text, and the buffer holds the header as soon as there was
    a write. *)
Definition gzip_open (plain : list byte) (b : list byte) (z : gzip.Writer)
    : Prop :=
  gzip.closed z = false
  ∧ gzip.digest z = crc32.Update 0 plain
  ∧ gzip.size z = Z.of_nat (length plain) mod 2 ^ 32
  ∧ gzip.compressor z = plain
  ∧ b = (if gzip.wroteHeader z then gzip.header else []).

(** ** The handler as a function of its input

    The outcome and the trace of a call, computed from what [Gather] and
    the encoders return.  [serve_run] below shows that the handler
    behaves like this. *)

Section Run.

Context {MetricFamily : Type}.
Variable Negotiate : http.Header → Format.
Variable encode : Format → MetricFamily → list byte * option error.
Variable deflate : list byte → list byte.

(** The part up to the conversion of the headers. *)
Definition gather_step (opts : HandlerOpts) (mfs : list MetricFamily)
    (err : option error) : Outcome unit * list (Event MetricFamily) :=
  match err with
  | None => (Next (), [Gathered None])
  | Some err =>
      let logged :=
        Gathered (Some err)
        :: (if ErrorLog opts
            then [Println "error gathering metrics:" err] else []) in
      match ErrorHandling opts with
      | PanicOnError => (Panic err, logged)
      | ContinueOnError =>
          match mfs with
          | [] =>
              (Return,
               logged
               ++ [CtxError
                     ("No metrics gathered, last error:" +:+ nl +:+ nl +:+ err)
                     http.StatusInternalServerError])
          | _ => (Next (), logged)
          end
      | HTTPErrorOnError =>
          (Return,
           logged
           ++ [CtxError
                 ("An error has occurred during metrics gathering:"
                    +:+ nl +:+ nl +:+ err)
                 http.StatusInternalServerError])
      end
  end.

(** The part after the loop, for the contents [body] of the buffer after
    the close of the writer. *)
Definition commit_step (contentType : Format) (writer : Writer)
    (encoding : string) (lastErr : option error) (body : list byte)
    : Outcome unit * list (Event MetricFamily) :=
  let closing := if is_Closer writer then [Closed] else [] in
  let commit :=
    [ HeaderSet contentTypeHeader contentType;
      BufLen (length body);
      HeaderSet contentLengthHeader (Sprint (length body)) ]
    ++ (if String.eqb encoding "" then []
        else [HeaderSet contentEncodingHeader encoding])
    ++ [CtxWrite body] in
  match lastErr, body with
  | Some lastErr, [] =>
      (Return,
       closing
       ++ [ BufLen 0;
            CtxError ("No metrics encoded, last error:" +:+ nl +:+ nl +:+ lastErr)
                     http.StatusInternalServerError ])
  | Some _, _ => (Next (), closing ++ BufLen (length body) :: commit)
  | None, _ => (Next (), closing ++ commit)
  end.

(** The events of the calls of [Gather] and [Encode] carry what these
    calls return. *)
Definition reports (reg : Gatherer MetricFamily) (ct : Format)
    (e : Event MetricFamily) : Prop :=
  match e with
  | Gathered err => err = (Gather reg).2
  | Encoded mf err => err = (encode ct mf).2
  | _ => True
  end.

(** The whole call. *)
Definition run (ctx : fasthttp.RequestCtx) (reg : Gatherer MetricFamily)
    (opts : HandlerOpts) : Outcome unit * list (Event MetricFamily) :=
  let '(mfs, err) := Gather reg in
  match gather_step opts mfs err with
  | (Next _, gathered) =>
      let contentType := Negotiate (convert_header ctx) in
      let '(writer, encoding) :=
        decorateFastHttpWriter ctx BufferWriter (DisableCompression opts) in
      let looped := loop_events encode opts contentType mfs in
      match loop_outcome encode opts contentType mfs None with
      | Next lastErr =>
          let body := finalized deflate writer (payload encode contentType mfs) in
          let '(o, committed) :=
            commit_step contentType writer encoding lastErr body in
          (o, gathered ++ GetBuf :: looped ++ committed ++ [GiveBuf])
      | Return => (Return, gathered ++ GetBuf :: looped ++ [GiveBuf])
      | Panic v => (Panic v, gathered ++ GetBuf :: looped ++ [GiveBuf])
      end
  | (o, gathered) => (o, gathered)
  end.

End Run.

(** ** Sample collaborators, for the concrete runs below *)

Module Sample.

(** A family is given by the text its exposition consists of.  [Empty]
    is a family without metrics, which the text encoder rejects before it
    writes anything; [Broken] is a family the encoder fails on after it
    has written a part. *)
Inductive family :=
  | Good (text : string)
  | Empty
  | Broken (part : string).

Definition encode (_ : Format) (mf : family) : list byte * option error :=
  match mf with
  | Good text => (String.list_byte_of_string text, None)
  | Empty => ([], Some "MetricFamily has no metrics")
  | Broken part =>
      (String.list_byte_of_string part, Some "unexpected type in metric")
  end.

Definition Negotiate (_ : http.Header) : Format :=
  "text/plain; version=0.0.4".

(** A DEFLATE stream of stored blocks (RFC 1951, 3.2.4) of at most 65535
    bytes each. *)
Fixpoint stored (n : nat) (p : list byte) : list byte :=
  match n with
  | O => []
  | S n' =>
      let block := take (Z.to_nat 65535) p in
      let rest := drop (Z.to_nat 65535) p in
      let len := Z.of_nat (length block) in
      [ match rest with [] => x01 | _ => x00 end;
        byte_of_Z len; byte_of_Z (Z.shiftr len 8);
        byte_of_Z (65535 - len); byte_of_Z (Z.shiftr (65535 - len) 8) ]
      ++ block
      ++ match rest with [] => [] | _ => stored n' rest end
  end.

Definition deflate (p : list byte) : list byte := stored (S (length p)) p.

Definition ctx (h : fasthttp.RequestHeader) : fasthttp.RequestCtx :=
  fasthttp.mkRequestCtx (fasthttp.mkRequest h).

Definition handle (h : fasthttp.RequestHeader)
    (reg : list family * option error) (opts : HandlerOpts)
    : Outcome unit * World family :=
  serve Negotiate encode deflate (ctx h) (mkGatherer reg) opts.

(** Options with and without a log sink, compression enabled. *)
Definition with_log (policy : HandlerErrorHandling) : HandlerOpts :=
  mkHandlerOpts true policy false.

Definition no_log (policy : HandlerErrorHandling) : HandlerOpts :=
  mkHandlerOpts false policy false.

(** The headers of a request that accepts gzip. *)
Definition gzip_accepted : fasthttp.RequestHeader :=
  [("Accept-Encoding", "gzip, deflate")].

End Sample.

(** One step of the loop of [canonicalMIMEHeaderKey]: the byte written
    for the byte [c], for the current value of [upper]. *)
Definition canon_byte (upper : bool) (c : ascii) : ascii :=
  if upper && textproto.in_range 97 122 c
  then ascii_of_N (N_of_ascii c - textproto.toLower)
  else if negb upper && textproto.in_range 65 90 c
  then ascii_of_N (N_of_ascii c + textproto.toLower)
  else c.

(** A request with the given headers. *)
Definition request (h : fasthttp.RequestHeader) : fasthttp.RequestCtx :=
  fasthttp.mkRequestCtx (fasthttp.mkRequest h).

(** * Properties *)

(** ** Strings and header negotiation *)

Lemma strip_length (p s s' : string) :
  strings.strip p s = Some s' →
  String.length s = (String.length p + String.length s')%nat.
Proof.
  revert s. induction p as [|a p IH]; intros s; simpl.
  - by intros [= ->].
  - destruct s as [|c s]; [done|]. destruct (Ascii.eqb c a); [|done].
    intros H%IH. simpl. by rewrite H.
Qed.

Lemma strip_any_shorter (ps : list string) (s s' : string) :
  Forall (λ p, p ≠ EmptyString) ps →
  strings.strip_any ps s = Some s' →
  (String.length s' < String.length s)%nat.
Proof.
  induction 1 as [|p ps Hp _ IH]; simpl; [done|].
  destruct (strings.strip p s) as [s''|] eqn:E; [|exact IH].
  intros [= ->]. apply strip_length in E.
  destruct p; [done|]. simpl in E. lia.
Qed.

(** The bound of [trim_left] is enough: nothing is left to remove when
    it is at least the length of the string. *)
Lemma trim_left_done (n : nat) (ps : list string) (s : string) :
  Forall (λ p, p ≠ EmptyString) ps →
  (String.length s ≤ n)%nat →
  strings.strip_any ps (strings.trim_left n ps s) = None.
Proof.
  intros Hps. revert s. induction n as [|n IH]; intros s Hn; simpl.
  - destruct s; [|simpl in Hn; lia].
    induction Hps as [|p ps Hp _ IHp]; simpl; [done|].
    by destruct p.
  - destruct (strings.strip_any ps s) as [s'|] eqn:E; [|done].
    apply IH. apply strip_any_shorter in E; [lia|done].
Qed.

Lemma white_space_not_empty :
  Forall (λ p, p ≠ EmptyString) strings.white_space.
Proof. repeat constructor; discriminate. Qed.

(** A trimmed string does not start with white space. *)
Lemma TrimLeftSpace_done (s : string) :
  strings.strip_any strings.white_space (strings.TrimLeftSpace s) = None.
Proof. apply trim_left_done; [apply white_space_not_empty | done]. Qed.

Example TrimSpace_ascii :
  strings.TrimSpace (" " +:+ nl +:+ "gzip;q=1.0 " +:+ nl) = "gzip;q=1.0".
Proof. reflexivity. Qed.

(** U+00A0 in front and U+2003 behind are white space, too. *)
Example TrimSpace_unicode :
  strings.TrimSpace
    (strings.bytes_to_string [194; 160; 103; 122; 226; 128; 131]%N)
  = "gz".
Proof. reflexivity. Qed.

Lemma HasPrefix_spec (s prefix : string) :
  strings.HasPrefix s prefix = true ↔ ∃ rest, s = prefix +:+ rest.
Proof.
  revert s. induction prefix as [|p prefix IH]; intros s; simpl.
  - split; [intros _; exists s; reflexivity | reflexivity].
  - destruct s as [|c s]; simpl.
    + split; [discriminate | intros [rest H]; discriminate].
    + destruct (Ascii.eqb_spec c p) as [->|Hne].
      * rewrite IH. split; intros [rest H]; exists rest.
        -- rewrite H. reflexivity.
        -- change (String p s = String p (prefix +:+ rest)) in H. congruence.
      * split; [discriminate |].
        intros [rest H].
        change (String c s = String p (prefix +:+ rest)) in H. congruence.
Qed.

Lemma names_gzip_spec (part : string) :
  names_gzip part = true ↔
  strings.TrimSpace part = "gzip"
  ∨ ∃ rest, strings.TrimSpace part = "gzip;" +:+ rest.
Proof.
  unfold names_gzip. rewrite orb_true_iff, HasPrefix_spec.
  by rewrite String.eqb_eq.
Qed.

Lemma decorate_existsb (ctx : fasthttp.RequestCtx) (writer : Writer) :
  decorateFastHttpWriter ctx writer false =
  if existsb names_gzip
       (strings.Split
          (fasthttp.Peek (fasthttp.Header (fasthttp.Request_ ctx))
                         acceptEncodingHeader) ","%char)
  then (GzipWriter writer, "gzip") else (writer, "").
Proof.
  unfold decorateFastHttpWriter.
  induction (strings.Split _ _) as [|part parts IH]; [reflexivity|].
  cbn -[strings.TrimSpace strings.HasPrefix String.eqb names_gzip].
  fold (names_gzip part).
  destruct (names_gzip part); cbn [orb]; [reflexivity | exact IH].
Qed.

(** C7: with compression disabled, [decorateFastHttpWriter] returns the
    writer it was given and the empty encoding, whatever the request
    headers are. *)
Theorem decorate_disabled (ctx : fasthttp.RequestCtx) (writer : Writer) :
  decorateFastHttpWriter ctx writer true = (writer, "").
Proof. reflexivity. Qed.

(** C6: with compression enabled, the value of the Accept-Encoding header
    is split on commas and every part is trimmed; the result is the gzip
    writer around the given writer and the encoding "gzip" when some
    trimmed part is "gzip" or starts with "gzip;", and the given writer
    and the empty encoding for every other header value. *)
Theorem decorate_negotiates_gzip
    (ctx : fasthttp.RequestCtx) (writer : Writer) :
  let header :=
    fasthttp.Peek (fasthttp.Header (fasthttp.Request_ ctx)) "Accept-Encoding" in
  let accepted :=
    ∃ part, part ∈ strings.Split header ","%char
            ∧ (strings.TrimSpace part = "gzip"
               ∨ ∃ rest, strings.TrimSpace part = "gzip;" +:+ rest) in
  (accepted →
   decorateFastHttpWriter ctx writer false = (GzipWriter writer, "gzip"))
  ∧ (¬ accepted → decorateFastHttpWriter ctx writer false = (writer, "")).
Proof.
  intros header accepted. rewrite decorate_existsb.
  fold acceptEncodingHeader in header. fold header.
  destruct (existsb names_gzip (strings.Split header ","%char)) eqn:E.
  - split; [done|]. intros Hn. destruct Hn.
    apply existsb_exists in E as (part & Hin & Hp).
    exists part. split; [by apply list_elem_of_In|].
    by apply names_gzip_spec.
  - split; [|done]. intros (part & Hin & Hp).
    assert (existsb names_gzip (strings.Split header ","%char) = true)
      as E'; [|congruence].
    apply existsb_exists. exists part.
    split; [by apply list_elem_of_In | by apply names_gzip_spec].
Qed.

Lemma decorate_negotiates_gzip_witness :
  decorateFastHttpWriter
    (Sample.ctx [("Accept-Encoding", "deflate, gzip;q=0.8")])
    BufferWriter false
  = (GzipWriter BufferWriter, "gzip")
  ∧ decorateFastHttpWriter
      (Sample.ctx [("Accept-Encoding", "identity")]) BufferWriter false
    = (BufferWriter, "").
Proof.
  split.
  - apply (proj1 (decorate_negotiates_gzip
                    (Sample.ctx [("Accept-Encoding", "deflate, gzip;q=0.8")])
                    BufferWriter)).
    exists " gzip;q=0.8". split.
    + vm_compute. apply list_elem_of_further, list_elem_of_here.
    + right. exists "q=0.8". reflexivity.
  - apply (proj2 (decorate_negotiates_gzip
                    (Sample.ctx [("Accept-Encoding", "identity")])
                    BufferWriter)).
    intros (part & Hin & Hp). vm_compute in Hin.
    apply list_elem_of_singleton in Hin as ->.
    destruct Hp as [Hp | [rest Hp]]; vm_compute in Hp; discriminate.
Defined.

(** The header values the negotiation is documented with. *)
Example decorate_no_header :
  decorateFastHttpWriter (Sample.ctx []) BufferWriter false
  = (BufferWriter, "").
Proof. reflexivity. Qed.

Example decorate_deflate :
  decorateFastHttpWriter
    (Sample.ctx [("Accept-Encoding", "deflate")]) BufferWriter false
  = (BufferWriter, "").
Proof. reflexivity. Qed.

Example decorate_gzip_deflate :
  decorateFastHttpWriter
    (Sample.ctx [("Accept-Encoding", "gzip, deflate")]) BufferWriter false
  = (GzipWriter BufferWriter, "gzip").
Proof. reflexivity. Qed.

(** Matching is by bytes: an upper case GZIP is not accepted, and no
    quality value is looked at. *)
Example decorate_upper_case :
  decorateFastHttpWriter
    (Sample.ctx [("Accept-Encoding", "GZIP")]) BufferWriter false
  = (BufferWriter, "").
Proof. reflexivity. Qed.

Example decorate_quality_zero :
  decorateFastHttpWriter
    (Sample.ctx [("Accept-Encoding", "gzip;q=0")]) BufferWriter false
  = (GzipWriter BufferWriter, "gzip").
Proof. reflexivity. Qed.

(** ** The conversion of the request headers *)

Lemma convert_header_snoc (h : fasthttp.RequestHeader) (key value : string) :
  convert_header (Sample.ctx (h ++ [(key, value)]))
  = http.Header_Set (convert_header (Sample.ctx h)) key value.
Proof.
  unfold convert_header, fasthttp.VisitAll. simpl.
  by rewrite fold_left_app.
Qed.

Lemma convert_header_lookup (h : fasthttp.RequestHeader) (name : string) :
  convert_header (Sample.ctx h) !! name
  = (λ kv, [kv.2])
      <$> last (filter (λ kv, textproto.CanonicalMIMEHeaderKey kv.1 = name) h).
Proof.
  induction h as [|[key value] h IH] using rev_ind.
  - reflexivity.
  - rewrite convert_header_snoc. unfold http.Header_Set.
    rewrite filter_app, filter_cons, filter_nil. simpl.
    destruct (decide (textproto.CanonicalMIMEHeaderKey key = name)) as [<-|Hne].
    + by rewrite lookup_insert_eq, last_snoc.
    + by rewrite lookup_insert_ne, app_nil_r.
Qed.

(** C10: in the header map handed to the negotiation of the content
    type, a name has the single value of the last visited request header
    whose name has that canonical form, and no entry when there is no
    such header: of several headers of one name, all but the last are
    dropped. *)
Theorem convert_header_keeps_last (ctx : fasthttp.RequestCtx) (name : string) :
  convert_header ctx !! name
  = (λ kv, [kv.2])
      <$> last (filter (λ kv, textproto.CanonicalMIMEHeaderKey kv.1 = name)
                       (fasthttp.Header (fasthttp.Request_ ctx))).
Proof. destruct ctx as [[h]]. apply convert_header_lookup. Qed.

(** For a request whose header names are in canonical form already, as
    the transport normalises them, the value is that of the last header
    of that very name. *)
Corollary convert_header_canonical (ctx : fasthttp.RequestCtx) (name : string) :
  Forall (λ kv, textproto.CanonicalMIMEHeaderKey kv.1 = kv.1)
         (fasthttp.Header (fasthttp.Request_ ctx)) →
  convert_header ctx !! name
  = (λ kv, [kv.2])
      <$> last (filter (λ kv, kv.1 = name)
                       (fasthttp.Header (fasthttp.Request_ ctx))).
Proof.
  destruct ctx as [[h]]. cbn [fasthttp.Header fasthttp.Request_].
  intros Hc. rewrite (convert_header_lookup h). do 2 f_equal.
  induction Hc as [|kv h' Hkv _ IH]; [done|].
  rewrite !filter_cons, IH, Hkv. done.
Qed.

Example convert_header_duplicates :
  convert_header
    (Sample.ctx [("Accept", "text/plain"); ("accept", "application/json");
                 ("User-Agent", "curl")])
  !! "Accept" = Some ["application/json"].
Proof. reflexivity. Qed.

(** ** The gzip writer *)

Lemma crc32_Update_app (crc : Z) (p q : list byte) :
  crc32.Update (crc32.Update crc p) q = crc32.Update crc (p ++ q).
Proof.
  unfold crc32.Update. rewrite fold_left_app. do 2 f_equal.
  by rewrite Z.lxor_assoc, Z.lxor_nilpotent, Z.lxor_0_r.
Qed.

Lemma gzip_open_NewWriter : gzip_open [] [] gzip.NewWriter.
Proof. by repeat split. Qed.

Lemma gzip_open_Write (plain b p : list byte) (z : gzip.Writer) :
  gzip_open plain b z →
  gzip_open (plain ++ p) (b ++ (gzip.Write z p).2) (gzip.Write z p).1.
Proof.
  intros (Hc & Hd & Hs & Hp & Hb). repeat split; simpl.
  - done.
  - by rewrite Hd, crc32_Update_app.
  - rewrite Hs, length_app, Nat2Z.inj_add. by rewrite Zplus_mod_idemp_l.
  - by rewrite Hp.
  - rewrite Hb. by destruct (gzip.wroteHeader z).
Qed.

Lemma gzip_open_Close (deflate : list byte → list byte)
    (plain b : list byte) (z : gzip.Writer) :
  gzip_open plain b z →
  b ++ (gzip.Close deflate z).2 = gzip_member deflate plain.
Proof.
  intros (Hc & Hd & Hs & Hp & Hb). destruct z as [w c d s cp].
  cbn [gzip.closed gzip.digest gzip.size gzip.compressor gzip.wroteHeader]
    in *.
  subst. unfold gzip.Close, gzip_member, gzip.Write.
  cbn [gzip.closed gzip.digest gzip.size gzip.compressor gzip.wroteHeader
       snd fst length].
  destruct w; cbn [app].
  - reflexivity.
  - change (Z.of_nat 0) with 0.
    rewrite crc32_Update_app, !app_nil_r, Z.add_0_r, Z.mod_mod by lia.
    reflexivity.
Qed.

(** A gzip member is never empty: the header and the trailer alone are
    eighteen bytes. *)
Lemma gzip_member_length (deflate : list byte → list byte)
    (plain : list byte) :
  (18 ≤ length (gzip_member deflate plain))%nat.
Proof.
  unfold gzip_member. rewrite !length_app. simpl. lia.
Qed.

(** ** Projections of a trace *)

Section ObservationFacts.

Context {MetricFamily : Type}.

Implicit Types (e : Event MetricFamily) (tr : list (Event MetricFamily)).

Lemma responder_ops_app tr tr' :
  responder_ops (tr ++ tr') = responder_ops tr ++ responder_ops tr'.
Proof. apply List.filter_app. Qed.

Lemma responder_ops_cons e tr :
  responder_ops (e :: tr)
  = if is_responder e then e :: responder_ops tr else responder_ops tr.
Proof. reflexivity. Qed.

Lemma pool_ops_app tr tr' : pool_ops (tr ++ tr') = pool_ops tr ++ pool_ops tr'.
Proof. apply List.filter_app. Qed.

Lemma pool_ops_cons e tr :
  pool_ops (e :: tr) = if is_pool e then e :: pool_ops tr else pool_ops tr.
Proof. reflexivity. Qed.

Lemma pool_ops_none tr :
  Forall (λ e, is_pool e = false) tr → pool_ops tr = [].
Proof.
  induction 1 as [|e tr He _ IH]; [done|]. by rewrite pool_ops_cons, He.
Qed.

Lemma log_lines_app tr tr' : log_lines (tr ++ tr') = log_lines tr ++ log_lines tr'.
Proof. apply omap_app. Qed.

Lemma errors_met_app tr tr' :
  errors_met (tr ++ tr') = errors_met tr ++ errors_met tr'.
Proof. apply omap_app. Qed.

Lemma encoded_families_app tr tr' :
  encoded_families (tr ++ tr') = encoded_families tr ++ encoded_families tr'.
Proof. apply omap_app. Qed.

End ObservationFacts.

(** ** The encode loop *)

Section LoopFacts.

Context {MetricFamily : Type}.
Variable encode : Format → MetricFamily → list byte * option error.

Implicit Types (σ : World MetricFamily) (tr : list (Event MetricFamily)).

Lemma set_trace_id σ : set_trace (trace σ) σ = σ.
Proof. by destruct σ. Qed.

Lemma set_trace_twice tr tr' σ :
  set_trace tr (set_trace tr' σ) = set_trace tr σ.
Proof. reflexivity. Qed.

Lemma Write_set_trace (writer : Writer) (p : list byte) tr σ :
  Write writer p (set_trace tr σ) = set_trace tr (Write writer p σ).
Proof.
  revert p σ. induction writer as [|w IH]; intros p σ.
  - reflexivity.
  - cbn [Write set_trace zw buf trace].
    destruct (gzip.Write (zw σ) p) as [z out].
    apply (IH out (mkWorld (trace σ) (buf σ) z)).
Qed.

Lemma Write_trace (writer : Writer) (p : list byte) σ :
  trace (Write writer p σ) = trace σ.
Proof.
  revert p σ. induction writer as [|w IH]; intros p σ.
  - reflexivity.
  - cbn [Write]. destruct (gzip.Write (zw σ) p) as [z out]. by rewrite IH.
Qed.

Lemma write_out_set_trace (writer : Writer) (out : list byte) tr σ :
  write_out writer out (set_trace tr σ) = set_trace tr (write_out writer out σ).
Proof. destruct out; [reflexivity | apply Write_set_trace]. Qed.

Lemma write_out_trace (writer : Writer) (out : list byte) σ :
  trace (write_out writer out σ) = trace σ.
Proof. destruct out; [reflexivity | apply Write_trace]. Qed.

Lemma after_writes_set_trace (writer : Writer) (ct : Format)
    (mfs : list MetricFamily) tr σ :
  after_writes encode writer ct mfs (set_trace tr σ)
  = set_trace tr (after_writes encode writer ct mfs σ).
Proof.
  revert σ. induction mfs as [|mf mfs IH]; intros σ; [reflexivity|].
  unfold after_writes in *. cbn [fold_left].
  rewrite write_out_set_trace. apply IH.
Qed.

(** The loop, run from any state: how it is left, the events it adds,
    and the writes it makes. *)
Lemma encode_families_run (ctx : fasthttp.RequestCtx) (opts : HandlerOpts)
    (writer : Writer) (ct : Format) (mfs : list MetricFamily)
    (lastErr : option error) σ :
  encode_families encode ctx opts writer ct mfs lastErr σ
  = (loop_outcome encode opts ct mfs lastErr,
     set_trace (trace σ ++ loop_events encode opts ct mfs)
       (after_writes encode writer ct (loop_done encode opts ct mfs) σ)).
Proof.
  revert lastErr σ.
  induction mfs as [|mf mfs IH]; intros lastErr σ.
  - cbn. by rewrite app_nil_r, set_trace_id.
  - cbn [encode_families loop_outcome loop_events loop_done].
    unfold Encode, after_writes. cbn [fold_left].
    fold (after_writes encode writer ct).
    destruct (encode ct mf) as [out err]. cbn [fst snd].
    unfold mbind, M_bind, when, emit, modify, mret, M_ret, return_, panic.
    cbn beta.
    pose proof (write_out_trace writer out σ) as Hw.
    set (σw := write_out writer out σ) in *. clearbody σw.
    destruct err as [err|];
      [destruct (ErrorLog opts), (ErrorHandling opts)|];
      cbn [trace buf zw]; rewrite ?IH; cbn [trace buf zw];
      repeat match goal with
        | |- context [mkWorld ?t (buf σw) (zw σw)] =>
            change (mkWorld t (buf σw) (zw σw)) with (set_trace t σw)
        end;
      rewrite ?after_writes_set_trace, ?set_trace_twice, ?Hw;
      do 2 f_equal; cbn [after_writes fold_left];
      by rewrite <- ?app_assoc.
Qed.

(** When the loop runs to its end, it has got to every family. *)
Lemma loop_outcome_Next (opts : HandlerOpts) (ct : Format)
    (mfs : list MetricFamily) (lastErr lastErr' : option error) :
  loop_outcome encode opts ct mfs lastErr = Next lastErr' →
  loop_done encode opts ct mfs = mfs.
Proof.
  revert lastErr. induction mfs as [|mf mfs IH]; intros lastErr; [done|].
  cbn [loop_outcome loop_done].
  destruct (encode ct mf).2 as [err|]; [destruct (ErrorHandling opts)|];
    try done; intros H; f_equal; eauto.
Qed.

Lemma payload_cons (ct : Format) (mf : MetricFamily) (mfs : list MetricFamily) :
  payload encode ct (mf :: mfs) = (encode ct mf).1 ++ payload encode ct mfs.
Proof. reflexivity. Qed.

(** The buffer after the writes of the encoders, without compression. *)
Lemma after_writes_buffer (ct : Format) (mfs : list MetricFamily) σ :
  buf (after_writes encode BufferWriter ct mfs σ)
  = buf σ ++ payload encode ct mfs.
Proof.
  revert σ. induction mfs as [|mf mfs IH]; intros σ.
  - by rewrite app_nil_r.
  - unfold after_writes in *. cbn [fold_left]. rewrite IH, payload_cons.
    rewrite app_assoc. f_equal.
    unfold write_out. destruct (encode ct mf).1; [by rewrite app_nil_r|done].
Qed.

(** The gzip writer and the buffer after the writes of the encoders. *)
Lemma after_writes_gzip (ct : Format) (mfs : list MetricFamily)
    (plain : list byte) σ :
  gzip_open plain (buf σ) (zw σ) →
  let σ' := after_writes encode (GzipWriter BufferWriter) ct mfs σ in
  gzip_open (plain ++ payload encode ct mfs) (buf σ') (zw σ').
Proof.
  revert plain σ. induction mfs as [|mf mfs IH]; intros plain σ H.
  - by rewrite app_nil_r.
  - unfold after_writes in *. cbn [fold_left].
    rewrite payload_cons, app_assoc. apply IH.
    unfold write_out. destruct (encode ct mf).1 as [|c out] eqn:E.
    + by rewrite app_nil_r.
    + cbn [Write buf_Write]. pose proof (gzip_open_Write _ _ (c :: out) _ H).
      by destruct (gzip.Write (zw σ) (c :: out)).
Qed.

(** *** What the events of the loop are *)

(** The loop does not touch the pool, does not close the writer, reads no
    length and commits nothing. *)
Lemma loop_events_kind (opts : HandlerOpts) (ct : Format)
    (mfs : list MetricFamily) :
  Forall (λ e, is_pool e = false ∧ is_commit e = false)
         (loop_events encode opts ct mfs).
Proof.
  induction mfs as [|mf mfs IH]; [constructor|].
  cbn [loop_events].
  destruct (encode ct mf).2 as [err|];
    [destruct (ErrorLog opts), (ErrorHandling opts)|];
    repeat (first [done | constructor]).
Qed.

(** Every error of an encoder is followed by its line in the log, when
    there is a log. *)
Lemma loop_events_logged (opts : HandlerOpts) (ct : Format)
    (mfs : list MetricFamily) :
  log_lines (loop_events encode opts ct mfs)
  = if ErrorLog opts then errors_met (loop_events encode opts ct mfs) else [].
Proof.
  induction mfs as [|mf mfs IH]; [by destruct (ErrorLog opts)|].
  cbn [loop_events]. unfold log_lines, errors_met in *.
  destruct (encode ct mf).2 as [err|];
    [destruct (ErrorLog opts) eqn:El, (ErrorHandling opts)|];
    cbn [omap list_omap app] in *; rewrite ?IH; done.
Qed.

(** Under [ContinueOnError] the loop gets to every family and runs to its
    end; [lastErr] is then the last error of an encoder. *)
Lemma loop_continue (opts : HandlerOpts) (ct : Format)
    (mfs : list MetricFamily) (lastErr : option error) :
  ErrorHandling opts = ContinueOnError →
  loop_outcome encode opts ct mfs lastErr
  = Next (match last_encode_error encode ct mfs with
          | Some err => Some err
          | None => lastErr
          end)
  ∧ encoded_families (loop_events encode opts ct mfs) = mfs
  ∧ responder_ops (loop_events encode opts ct mfs) = [].
Proof.
  intros Hc. revert lastErr.
  induction mfs as [|mf mfs IH]; intros lastErr; [done|].
  cbn [loop_outcome loop_events]. unfold last_encode_error in *.
  cbn [omap list_omap]. rewrite Hc.
  destruct (encode ct mf).2 as [err|].
  - destruct (IH (Some err)) as (-> & Hf & Hr). split; [|split].
    + f_equal. rewrite last_cons. by destruct (last _).
    + unfold encoded_families in *.
      destruct (ErrorLog opts); cbn [omap list_omap app]; by rewrite Hf.
    + rewrite responder_ops_cons, responder_ops_app, Hr.
      by destruct (ErrorLog opts).
  - destruct (IH lastErr) as (-> & Hf & Hr).
    split; [done|]. split; [|by rewrite responder_ops_cons].
    unfold encoded_families in *. cbn [omap list_omap]. by rewrite Hf.
Qed.

(** Without an error of an encoder the loop runs to its end under every
    policy, and leaves [lastErr] as it was. *)
Lemma loop_no_error (opts : HandlerOpts) (ct : Format)
    (mfs : list MetricFamily) (lastErr : option error) :
  first_encode_error encode ct mfs = None →
  loop_outcome encode opts ct mfs lastErr = Next lastErr
  ∧ responder_ops (loop_events encode opts ct mfs) = [].
Proof.
  unfold first_encode_error.
  induction mfs as [|mf mfs IH]; [done|].
  cbn [omap list_omap loop_outcome loop_events].
  destruct (encode ct mf).2 as [err|]; [done|]. intros H.
  destruct (IH H) as [-> Hr]. by rewrite responder_ops_cons.
Qed.

(** Under [HTTPErrorOnError] the loop returns at the first error of an
    encoder, after the error response; the families behind the failing
    one are not encoded. *)
Lemma loop_http_error (opts : HandlerOpts) (ct : Format)
    (mfs : list MetricFamily) (lastErr : option error) (err : error) :
  ErrorHandling opts = HTTPErrorOnError →
  first_encode_error encode ct mfs = Some err →
  loop_outcome encode opts ct mfs lastErr = Return
  ∧ responder_ops (loop_events encode opts ct mfs)
    = [CtxError ("An error has occurred during metrics encoding:"
                   +:+ nl +:+ nl +:+ err)
                http.StatusInternalServerError]
  ∧ ∃ pre mf post,
      mfs = pre ++ mf :: post
      ∧ Forall (λ mf, (encode ct mf).2 = None) pre
      ∧ (encode ct mf).2 = Some err
      ∧ encoded_families (loop_events encode opts ct mfs) = pre ++ [mf].
Proof.
  intros Hh. unfold first_encode_error.
  induction mfs as [|mf mfs IH]; [done|].
  cbn [omap list_omap loop_outcome loop_events]. rewrite Hh.
  destruct (encode ct mf).2 as [err'|] eqn:E.
  - intros [= ->]. repeat split.
    + rewrite responder_ops_cons, responder_ops_app.
      by destruct (ErrorLog opts).
    + exists [], mf, mfs. repeat split; [constructor|done|].
      by destruct (ErrorLog opts).
  - intros H. destruct (IH H) as (-> & Hr & pre & mf' & post & -> & Hp & He & Hf).
    repeat split; [by rewrite responder_ops_cons|].
    exists (mf :: pre), mf', post. repeat split; [by constructor|done|].
    unfold encoded_families in *. cbn [omap list_omap]. by rewrite Hf.
Qed.

Lemma first_encode_error_Exists (ct : Format) (mfs : list MetricFamily) :
  Exists (λ mf, is_Some (encode ct mf).2) mfs →
  is_Some (first_encode_error encode ct mfs).
Proof.
  unfold first_encode_error.
  induction 1 as [mf mfs [err H]|mf mfs _ IH]; cbn [omap list_omap].
  - by rewrite H.
  - by destruct (encode ct mf).2.
Qed.

End LoopFacts.

(** ** The handler behaves like [run] *)

Lemma decorate_cases (ctx : fasthttp.RequestCtx) (disabled : bool) :
  decorateFastHttpWriter ctx BufferWriter disabled = (BufferWriter, "")
  ∨ decorateFastHttpWriter ctx BufferWriter disabled
    = (GzipWriter BufferWriter, "gzip").
Proof.
  destruct disabled; [by left|]. rewrite decorate_existsb.
  destruct (existsb _ _); auto.
Qed.

Section RunFacts.

Context {MetricFamily : Type}.
Variable Negotiate : http.Header → Format.
Variable encode : Format → MetricFamily → list byte * option error.
Variable deflate : list byte → list byte.

Implicit Types (σ : World MetricFamily) (tr : list (Event MetricFamily)).

Lemma gather_metrics_run (reg : Gatherer MetricFamily) (opts : HandlerOpts) σ :
  let step := gather_step opts (Gather reg).1 (Gather reg).2 in
  gather_metrics reg opts σ
  = (match step.1 with
     | Next _ => Next (Gather reg).1
     | Return => Return
     | Panic v => Panic v
     end,
     set_trace (trace σ ++ step.2) σ).
Proof.
  unfold gather_metrics, gather_step.
  destruct (Gather reg) as [mfs err]. cbn [fst snd].
  unfold mbind, M_bind, when, emit, modify, mret, M_ret, return_, panic.
  destruct err as [err|];
    [destruct (ErrorLog opts), (ErrorHandling opts), mfs as [|mf mfs]|];
    cbn [trace buf zw fst snd length bool_decide];
    rewrite ?bool_decide_eq_true_2 by done;
    rewrite ?bool_decide_eq_false_2 by done;
    cbn [trace buf zw fst snd]; unfold set_trace;
    by rewrite <- ?app_assoc.
Qed.

(** The state after the close of the writer, when it has one. *)
Lemma close_trace (writer : Writer) σ :
  trace (when (is_Closer writer) (Close deflate writer) σ).2
  = trace σ ++ (if is_Closer writer then [Closed] else []).
Proof.
  destruct writer as [|w]; cbn [is_Closer when].
  - cbn. by rewrite app_nil_r.
  - unfold Close, mbind, M_bind, emit, modify. cbn [snd trace buf zw].
    destruct (gzip.Close deflate (zw σ)) as [z out].
    by rewrite Write_trace.
Qed.

Lemma commit_response_run (ct : Format) (writer : Writer) (encoding : string)
    (lastErr : option error) σ :
  let σc := (when (is_Closer writer) (Close deflate writer) σ).2 in
  let step := commit_step ct writer encoding lastErr (buf σc) in
  commit_response deflate ct writer encoding lastErr σ
  = (step.1, set_trace (trace σ ++ step.2) σc).
Proof.
  intros σc step.
  pose proof (close_trace writer σ) as Ht. fold σc in Ht.
  assert (when (is_Closer writer) (Close deflate writer) σ = (Next (), σc))
    as Hc.
  { subst σc. destruct writer; [done|].
    cbn [is_Closer when]. unfold Close, mbind, M_bind, emit, modify. done. }
  unfold commit_response, step, commit_step.
  unfold mbind at 1. unfold M_bind at 1. rewrite Hc.
  clearbody σc. clear Hc step.
  unfold mbind, M_bind, when, emit, modify, mret, M_ret, return_, buf_Len,
    buf_Bytes.
  destruct σc as [t b z]. cbn [trace] in Ht. subst t. unfold set_trace.
  destruct lastErr as [lastErr|]; [destruct b as [|c b]|];
    destruct (String.eqb encoding "");
    cbn [trace buf zw fst snd length bool_decide negb];
    rewrite ?bool_decide_eq_true_2 by done;
    rewrite ?bool_decide_eq_false_2 by done;
    cbn [trace buf zw fst snd length negb];
    f_equal; f_equal; rewrite <- ?app_assoc; reflexivity.
Qed.

(** The buffer after the loop and the close of the writer. *)
Lemma closed_buffer (writer : Writer) (ct : Format) (mfs : list MetricFamily)
    tr tr' :
  writer = BufferWriter ∨ writer = GzipWriter BufferWriter →
  let σ :=
    set_trace tr'
      (after_writes encode writer ct mfs (mkWorld tr [] gzip.NewWriter)) in
  buf (when (is_Closer writer) (Close deflate writer) σ).2
  = finalized deflate writer (payload encode ct mfs).
Proof.
  intros [-> | ->] σ; subst σ; cbn [is_Closer when finalized snd].
  - unfold mret, M_ret. cbn [snd set_trace buf]. by rewrite after_writes_buffer.
  - pose proof (after_writes_gzip encode ct mfs [] (mkWorld tr [] gzip.NewWriter)
                  gzip_open_NewWriter) as H.
    cbn zeta in H. rewrite app_nil_l in H.
    apply (gzip_open_Close deflate) in H.
    unfold Close, mbind, M_bind, emit, modify.
    cbn [snd trace buf zw set_trace Write buf_Write].
    by destruct (gzip.Close deflate _) as [z out].
Qed.

Lemma serve_run (ctx : fasthttp.RequestCtx) (reg : Gatherer MetricFamily)
    (opts : HandlerOpts) :
  let r := serve Negotiate encode deflate ctx reg opts in
  (r.1, trace r.2) = run Negotiate encode deflate ctx reg opts.
Proof.
  intros r. destruct r as [o σ] eqn:E. subst r. cbn [fst snd]. revert E.
  unfold serve, FastHttpHandlerFor, run.
  unfold mbind at 1. unfold M_bind at 1. rewrite gather_metrics_run.
  destruct (Gather reg) as [mfs err]. cbn [fst snd].
  destruct (gather_step opts mfs err) as [[[]| |v] gathered];
    cbn [fst snd trace set_trace start app];
    [|by intros [= <- <-]..].
  set (ct := Negotiate (convert_header ctx)).
  pose proof (decorate_cases ctx (DisableCompression opts)) as Hw.
  destruct (decorateFastHttpWriter ctx BufferWriter (DisableCompression opts))
    as [writer encoding].
  assert (writer = BufferWriter ∨ writer = GzipWriter BufferWriter) as Hw'.
  { destruct Hw as [Hw|Hw]; injection Hw; auto. }
  clear Hw.
  unfold defer, getBuf. unfold mbind at 1. unfold M_bind at 1.
  unfold modify at 1. cbn [trace buf zw].
  unfold mbind at 1. unfold M_bind at 1. rewrite encode_families_run.
  cbn [trace].
  destruct (loop_outcome encode opts ct mfs None) as [lastErr| |v] eqn:Ho.
  - rewrite commit_response_run.
    rewrite (loop_outcome_Next _ _ _ _ _ _ Ho).
    rewrite closed_buffer by done.
    destruct (commit_step ct writer encoding lastErr _) as [o' committed].
    cbn [fst snd]. intros [= <- <-].
    unfold giveBuf, set_trace. cbn [trace]. by rewrite <- !app_assoc.
  - intros [= <- <-]. unfold giveBuf, set_trace. cbn [trace].
    by rewrite <- !app_assoc.
  - intros [= <- <-]. unfold giveBuf, set_trace. cbn [trace].
    by rewrite <- !app_assoc.
Qed.

Lemma serve_outcome (ctx : fasthttp.RequestCtx) (reg : Gatherer MetricFamily)
    (opts : HandlerOpts) :
  (serve Negotiate encode deflate ctx reg opts).1
  = (run Negotiate encode deflate ctx reg opts).1.
Proof. by rewrite <- serve_run. Qed.

Lemma serve_trace (ctx : fasthttp.RequestCtx) (reg : Gatherer MetricFamily)
    (opts : HandlerOpts) :
  trace (serve Negotiate encode deflate ctx reg opts).2
  = (run Negotiate encode deflate ctx reg opts).2.
Proof. by rewrite <- serve_run. Qed.

(** *** What the events of the first and of the last part are *)

Lemma gather_step_kind (opts : HandlerOpts) (mfs : list MetricFamily)
    (err : option error) :
  Forall (λ e, is_pool e = false ∧ is_commit e = false)
         (gather_step opts mfs err).2.
Proof.
  unfold gather_step.
  destruct err as [err|];
    [destruct (ErrorLog opts), (ErrorHandling opts), mfs|];
    repeat (first [done | constructor]).
Qed.

Lemma gather_step_logged (opts : HandlerOpts) (mfs : list MetricFamily)
    (err : option error) :
  log_lines (gather_step opts mfs err).2
  = if ErrorLog opts then errors_met (gather_step opts mfs err).2 else [].
Proof.
  unfold gather_step.
  destruct err as [err|];
    [destruct (ErrorLog opts), (ErrorHandling opts), mfs|];
    try done.
  by destruct (ErrorLog opts).
Qed.

Lemma commit_step_kind (ct : Format) (writer : Writer) (encoding : string)
    (lastErr : option error) (body : list byte) :
  let committed := (commit_step ct writer encoding lastErr body).2 in
  Forall (λ e : Event MetricFamily, is_pool e = false) committed
  ∧ log_lines committed = [] ∧ errors_met committed = [].
Proof.
  unfold commit_step.
  destruct lastErr, body, (is_Closer writer), (String.eqb encoding "");
    cbn [snd app]; (split; [repeat (first [done | constructor]) | done]).
Qed.

Lemma commit_step_response (ct : Format) (writer : Writer)
    (encoding : string) (lastErr : option error) (body : list byte) :
  commit_step (MetricFamily := MetricFamily) ct writer encoding lastErr body
  = match lastErr, body with
    | Some lastErr, [] =>
        (Return,
         (if is_Closer writer then [Closed] else [])
         ++ [ BufLen 0;
              CtxError ("No metrics encoded, last error:"
                          +:+ nl +:+ nl +:+ lastErr) 500 ])
    | _, _ =>
        (Next (),
         (if is_Closer writer then [Closed] else [])
         ++ match lastErr with
            | Some _ => [BufLen (length body)]
            | None => []
            end
         ++ [ HeaderSet contentTypeHeader ct;
              BufLen (length body);
              HeaderSet contentLengthHeader (Sprint (length body)) ]
         ++ (if String.eqb encoding "" then []
             else [HeaderSet contentEncodingHeader encoding])
         ++ [CtxWrite body])
    end
  ∧ responder_ops (commit_step ct writer encoding lastErr body).2
    = match lastErr, body return list (Event MetricFamily) with
      | Some lastErr, [] =>
          [CtxError ("No metrics encoded, last error:"
                       +:+ nl +:+ nl +:+ lastErr) 500]
      | _, _ => success_response ct encoding body
      end.
Proof.
  unfold commit_step, success_response.
  destruct lastErr, body, (is_Closer writer), (String.eqb encoding "");
    done.
Qed.

(** *** The errors in a trace are those of the collaborators *)

Lemma loop_events_report (reg : Gatherer MetricFamily) (opts : HandlerOpts)
    (ct : Format) (mfs : list MetricFamily) :
  Forall (reports encode reg ct) (loop_events encode opts ct mfs).
Proof.
  induction mfs as [|mf mfs IH]; [constructor|].
  cbn [loop_events].
  destruct (encode ct mf).2 as [err|] eqn:E;
    [destruct (ErrorLog opts), (ErrorHandling opts)|];
    repeat (first [exact IH | done | constructor]).
Qed.

Lemma trace_reports (ctx : fasthttp.RequestCtx) (reg : Gatherer MetricFamily)
    (opts : HandlerOpts) :
  Forall (reports encode reg (Negotiate (convert_header ctx)))
         (trace (serve Negotiate encode deflate ctx reg opts).2).
Proof.
  rewrite serve_trace. unfold run.
  set (ct := Negotiate (convert_header ctx)).
  pose proof (loop_events_report reg opts ct (Gather reg).1) as Hl.
  destruct (Gather reg) as [mfs err] eqn:Hg. cbn [fst] in Hl.
  assert (Forall (reports encode reg ct) (gather_step opts mfs err).2) as Hgs.
  { unfold gather_step, reports. rewrite Hg.
    destruct err as [err|];
      [destruct (ErrorLog opts), (ErrorHandling opts), mfs|];
      repeat (first [done | constructor]). }
  destruct (gather_step opts mfs err) as [o gathered]. cbn [snd] in Hgs.
  destruct (decorateFastHttpWriter _ _ _) as [writer encoding].
  destruct o as [[]| |v]; [|done..].
  destruct (loop_outcome encode opts ct mfs None) as [lastErr| |v].
  - destruct (commit_step_response ct writer encoding lastErr
                (finalized deflate writer (payload encode ct mfs)))
      as [Hs _].
    destruct (commit_step _ _ _ _ _) as [o committed]. cbn [snd].
    apply Forall_app. split; [done|]. constructor; [done|].
    apply Forall_app. split; [done|].
    apply Forall_app. split; [|by repeat constructor].
    destruct lastErr, (finalized _ _ _), (is_Closer writer),
      (String.eqb encoding ""); simplify_eq; by repeat constructor.
  - cbn [snd]. apply Forall_app. split; [done|]. constructor; [done|].
    apply Forall_app. split; [done|]. by repeat constructor.
  - cbn [snd]. apply Forall_app. split; [done|]. constructor; [done|].
    apply Forall_app. split; [done|]. by repeat constructor.
Qed.

(** ** The buffer pool *)

(** C9: on every path on which the handler takes a buffer from the pool,
    whether it commits, responds with an error after the loop or inside
    it, or panics, it takes one buffer and gives it back once, as the
    last thing it does. *)
Theorem buffer_given_back_once (ctx : fasthttp.RequestCtx)
    (reg : Gatherer MetricFamily) (opts : HandlerOpts) :
  let tr := trace (serve Negotiate encode deflate ctx reg opts).2 in
  GetBuf ∈ tr → pool_ops tr = [GetBuf; GiveBuf] ∧ last tr = Some GiveBuf.
Proof.
  intros tr. subst tr. rewrite serve_trace. unfold run.
  destruct (Gather reg) as [mfs err].
  pose proof (gather_step_kind opts mfs err) as Hg.
  destruct (gather_step opts mfs err) as [o gathered]. cbn [snd] in Hg.
  set (ct := Negotiate (convert_header ctx)).
  destruct (decorateFastHttpWriter _ _ _) as [writer encoding].
  pose proof (loop_events_kind encode opts ct mfs) as Hl.
  pose proof (commit_step_kind ct writer encoding) as Hc.
  assert (pool_ops gathered = []) as Hg'.
  { apply pool_ops_none. eapply Forall_impl; [exact Hg|]. by intros ? []. }
  assert (pool_ops (loop_events encode opts ct mfs) = []) as Hl'.
  { apply pool_ops_none. eapply Forall_impl; [exact Hl|]. by intros ? []. }
  assert (GetBuf ∈ gathered → False) as Hn.
  { intros Hin. rewrite Forall_forall in Hg. by destruct (Hg _ Hin). }
  destruct o as [[]| |v]; [|by intros ?%Hn..].
  intros _.
  destruct (loop_outcome encode opts ct mfs None) as [lastErr| |v].
  - specialize (Hc lastErr
      (finalized deflate writer (payload encode ct mfs))).
    destruct (commit_step _ _ _ _ _) as [o committed].
    cbn zeta in Hc. cbn [snd] in *. destruct Hc as (Hc & _ & _).
    apply pool_ops_none in Hc. split.
    + rewrite pool_ops_app, pool_ops_cons, !pool_ops_app, Hg', Hl', Hc.
      reflexivity.
    + rewrite !app_comm_cons, !app_assoc. apply last_snoc.
  - cbn [snd]. split.
    + by rewrite pool_ops_app, pool_ops_cons, !pool_ops_app, Hg', Hl'.
    + rewrite !app_comm_cons, !app_assoc. apply last_snoc.
  - cbn [snd]. split.
    + by rewrite pool_ops_app, pool_ops_cons, !pool_ops_app, Hg', Hl'.
    + rewrite !app_comm_cons, !app_assoc. apply last_snoc.
Qed.

(** ** The log *)

Lemma run_logged (ctx : fasthttp.RequestCtx) (reg : Gatherer MetricFamily)
    (opts : HandlerOpts) :
  let tr := (run Negotiate encode deflate ctx reg opts).2 in
  log_lines tr = if ErrorLog opts then errors_met tr else [].
Proof.
  unfold run. destruct (Gather reg) as [mfs err].
  pose proof (gather_step_logged opts mfs err) as Hg.
  destruct (gather_step opts mfs err) as [o gathered]. cbn [snd] in Hg.
  set (ct := Negotiate (convert_header ctx)).
  destruct (decorateFastHttpWriter _ _ _) as [writer encoding].
  pose proof (loop_events_logged encode opts ct mfs) as Hl.
  pose proof (commit_step_kind ct writer encoding) as Hc.
  destruct o as [[]| |v]; [|done..].
  destruct (loop_outcome encode opts ct mfs None) as [lastErr| |v].
  - specialize (Hc lastErr
      (finalized deflate writer (payload encode ct mfs))).
    destruct (commit_step _ _ _ _ _) as [o committed].
    cbn zeta in Hc. cbn [snd] in *. destruct Hc as (_ & Hc & Hc').
    rewrite !log_lines_app, !errors_met_app.
    change (log_lines (GetBuf :: ?l)) with (log_lines l).
    change (errors_met (GetBuf :: ?l)) with (errors_met l).
    rewrite !log_lines_app, !errors_met_app, Hg, Hl, Hc, Hc'.
    by destruct (ErrorLog opts).
  - cbn [snd]. rewrite !log_lines_app, !errors_met_app.
    change (log_lines (GetBuf :: ?l)) with (log_lines l).
    change (errors_met (GetBuf :: ?l)) with (errors_met l).
    rewrite !log_lines_app, !errors_met_app, Hg, Hl.
    by destruct (ErrorLog opts).
  - cbn [snd]. rewrite !log_lines_app, !errors_met_app.
    change (log_lines (GetBuf :: ?l)) with (log_lines l).
    change (errors_met (GetBuf :: ?l)) with (errors_met l).
    rewrite !log_lines_app, !errors_met_app, Hg, Hl.
    by destruct (ErrorLog opts).
Qed.

(** C8: with a log sink, every error [Gather] or an encoder returns is
    handed to the sink once, with the prefix of its kind, under every
    error handling: the lines of the log are the errors met, one line
    for each, in order. *)
Theorem errors_logged_once (ctx : fasthttp.RequestCtx)
    (reg : Gatherer MetricFamily) (opts : HandlerOpts) :
  ErrorLog opts = true →
  let tr := trace (serve Negotiate encode deflate ctx reg opts).2 in
  log_lines tr = errors_met tr.
Proof.
  intros Hlog tr. subst tr. rewrite serve_trace.
  pose proof (run_logged ctx reg opts) as H. cbn zeta in H.
  by rewrite Hlog in H.
Qed.

(** X15: without a log sink nothing is logged, whatever errors occur
    and whatever the error handling is. *)
Lemma nothing_logged_without_sink (ctx : fasthttp.RequestCtx)
    (reg : Gatherer MetricFamily) (opts : HandlerOpts) :
  ErrorLog opts = false →
  log_lines (trace (serve Negotiate encode deflate ctx reg opts).2) = [].
Proof.
  intros Hlog. rewrite serve_trace.
  pose proof (run_logged ctx reg opts) as H. cbn zeta in H.
  by rewrite Hlog in H.
Qed.

(** ** Respond with an HTTP error *)

(** C4: under [HTTPErrorOnError], when [Gather] returns an error or the
    encoder fails on some family, the handler returns at once (no family
    behind the failing one is encoded) and the one thing it does to the
    response is the error response with status 500 whose text ends with
    the text of the error: no header is set and nothing of the buffer is
    written. *)
Theorem http_error_on_error (ctx : fasthttp.RequestCtx)
    (reg : Gatherer MetricFamily) (opts : HandlerOpts) :
  ErrorHandling opts = HTTPErrorOnError →
  let r := serve Negotiate encode deflate ctx reg opts in
  let mfs := (Gather reg).1 in
  let ct := Negotiate (convert_header ctx) in
  (∀ err, (Gather reg).2 = Some err →
     r.1 = Return
     ∧ responder_ops (trace r.2)
       = [CtxError ("An error has occurred during metrics gathering:"
                      +:+ nl +:+ nl +:+ err) 500]
     ∧ encoded_families (trace r.2) = [])
  ∧ ((Gather reg).2 = None →
     Exists (λ mf, is_Some (encode ct mf).2) mfs →
     ∃ err pre mf post,
       mfs = pre ++ mf :: post
       ∧ Forall (λ mf, (encode ct mf).2 = None) pre
       ∧ (encode ct mf).2 = Some err
       ∧ r.1 = Return
       ∧ responder_ops (trace r.2)
         = [CtxError ("An error has occurred during metrics encoding:"
                        +:+ nl +:+ nl +:+ err) 500]
       ∧ encoded_families (trace r.2) = pre ++ [mf]).
Proof.
  intros Hh r mfs ct. subst r mfs.
  rewrite serve_outcome, serve_trace. unfold run, gather_step.
  destruct (Gather reg) as [mfs err]. cbn [fst snd]. rewrite Hh.
  split.
  - intros err' ->. cbn [fst snd].
    by destruct (ErrorLog opts).
  - intros -> Hex. fold ct.
    destruct (decorateFastHttpWriter _ _ _) as [writer encoding].
    apply first_encode_error_Exists in Hex as [err Herr].
    destruct (loop_http_error encode opts ct mfs None err Hh Herr)
      as (-> & Hr & pre & mf & post & -> & Hpre & Hmf & Hf).
    exists err, pre, mf, post. cbn [fst snd].
    repeat split; try done.
    + rewrite responder_ops_app, (responder_ops_cons GetBuf),
        responder_ops_app, Hr. reflexivity.
    + rewrite encoded_families_app.
      change (encoded_families (GetBuf :: ?l)) with (encoded_families l).
      rewrite encoded_families_app, Hf. by rewrite app_nil_r.
Qed.

(** C5: when [Gather] returns no family and an error under
    [HTTPErrorOnError], the handler returns after the error response with
    status 500 whose text is the fixed line about metrics gathering, an
    empty line and the text of the error; it sets no Content-Type header
    (nor any other) and takes no buffer. *)
Theorem gather_error_response (ctx : fasthttp.RequestCtx)
    (reg : Gatherer MetricFamily) (opts : HandlerOpts) (err : error) :
  Gather reg = ([], Some err) →
  ErrorHandling opts = HTTPErrorOnError →
  let r := serve Negotiate encode deflate ctx reg opts in
  r.1 = Return
  ∧ responder_ops (trace r.2)
    = [CtxError ("An error has occurred during metrics gathering:"
                   +:+ nl +:+ nl +:+ err) 500]
  ∧ (∀ value, HeaderSet contentTypeHeader value ∉ trace r.2)
  ∧ pool_ops (trace r.2) = [].
Proof.
  intros Hg Hh r. subst r.
  rewrite serve_outcome, serve_trace. unfold run, gather_step.
  rewrite Hg, Hh. cbn [fst snd].
  destruct (ErrorLog opts); repeat split; try done.
  all: intros value Hin; cbn [app] in Hin.
  all: repeat (apply elem_of_cons in Hin as [Hin|Hin]; [done|]).
  all: by apply elem_of_nil in Hin.
Qed.

(** ** Without errors *)

(** When neither [Gather] nor an encoder returns an error, the response
    is committed under every error handling; its body is what the
    encoders wrote, compressed when gzip was negotiated. *)
Lemma no_error_commits (ctx : fasthttp.RequestCtx)
    (reg : Gatherer MetricFamily) (opts : HandlerOpts)
    (mfs : list MetricFamily) :
  Gather reg = (mfs, None) →
  let r := serve Negotiate encode deflate ctx reg opts in
  let ct := Negotiate (convert_header ctx) in
  let decorated :=
    decorateFastHttpWriter ctx BufferWriter (DisableCompression opts) in
  first_encode_error encode ct mfs = None →
  r.1 = Next ()
  ∧ responder_ops (trace r.2)
    = success_response ct decorated.2
        (finalized deflate decorated.1 (payload encode ct mfs)).
Proof.
  intros Hg r ct decorated Hok. subst r decorated.
  rewrite serve_outcome, serve_trace. unfold run, gather_step.
  rewrite Hg. fold ct.
  destruct (decorateFastHttpWriter _ _ _) as [writer encoding].
  cbn [fst snd].
  destruct (loop_no_error encode opts ct mfs None Hok) as [-> Hr].
  destruct (commit_step_response ct writer encoding None
              (finalized deflate writer (payload encode ct mfs)))
    as [Hs Hs'].
  destruct (commit_step _ _ _ _ _) as [o committed].
  cbn [fst snd] in *. split; [by simplify_eq|].
  rewrite responder_ops_app, (responder_ops_cons GetBuf),
    !responder_ops_app, Hr, Hs'. cbn. by rewrite app_nil_r.
Qed.

(** ** Continue on error *)

(** Under [ContinueOnError], once the gathering lets the handler go on,
    every family is encoded and the response is committed, unless an
    encoder failed and the buffer is empty after the close of the
    writer. *)
Lemma continue_completes (ctx : fasthttp.RequestCtx)
    (reg : Gatherer MetricFamily) (opts : HandlerOpts)
    (mfs : list MetricFamily) (err : option error) :
  ErrorHandling opts = ContinueOnError →
  Gather reg = (mfs, err) →
  err = None ∨ mfs ≠ [] →
  let r := serve Negotiate encode deflate ctx reg opts in
  let ct := Negotiate (convert_header ctx) in
  let decorated :=
    decorateFastHttpWriter ctx BufferWriter (DisableCompression opts) in
  let body := finalized deflate decorated.1 (payload encode ct mfs) in
  encoded_families (trace r.2) = mfs
  ∧ match last_encode_error encode ct mfs, body with
    | Some lastErr, [] =>
        r.1 = Return
        ∧ responder_ops (trace r.2)
          = [CtxError ("No metrics encoded, last error:"
                         +:+ nl +:+ nl +:+ lastErr) 500]
    | _, _ =>
        r.1 = Next ()
        ∧ responder_ops (trace r.2) = success_response ct decorated.2 body
    end.
Proof.
  intros Hc Hg Hgo r ct decorated body. subst r decorated body.
  rewrite serve_outcome, serve_trace. unfold run.
  rewrite Hg. fold ct.
  assert (∃ gathered,
            gather_step opts mfs err = (Next (), gathered)
            ∧ encoded_families gathered = []
            ∧ responder_ops gathered = []) as (gathered & -> & Hg1 & Hg2).
  { unfold gather_step. rewrite Hc.
    destruct err as [err|]; [|by eexists].
    destruct Hgo as [|Hne]; [done|].
    destruct mfs; [done|]. eexists. split; [done|].
    by destruct (ErrorLog opts). }
  destruct (decorateFastHttpWriter _ _ _) as [writer encoding].
  cbn [fst snd].
  destruct (loop_continue encode opts ct mfs None Hc) as (-> & Hf & Hr).
  set (lastErr := match last_encode_error encode ct mfs with
                  | Some e => Some e
                  | None => None
                  end).
  assert (lastErr = last_encode_error encode ct mfs) as ->.
  { subst lastErr. by destruct (last_encode_error _ _ _). }
  set (body := finalized deflate writer (payload encode ct mfs)).
  destruct (commit_step_response ct writer encoding
              (last_encode_error encode ct mfs) body) as [Hs Hs'].
  destruct (commit_step _ _ _ _ _) as [o committed]. cbn [snd] in Hs'.
  cbn [fst snd]. split.
  - rewrite !encoded_families_app.
    change (encoded_families (GetBuf :: ?l)) with (encoded_families l).
    rewrite !encoded_families_app, Hf, Hg1.
    assert (encoded_families committed = []) as ->.
    { destruct (last_encode_error _ _ _), body, (is_Closer writer),
        (String.eqb encoding ""); by simplify_eq. }
    by rewrite app_nil_r.
  - assert (responder_ops
              (gathered ++ GetBuf :: loop_events encode opts ct mfs
               ++ committed ++ [GiveBuf])
            = responder_ops committed) as Hall.
    { rewrite responder_ops_app, (responder_ops_cons GetBuf),
        !responder_ops_app, Hr, Hg2. cbn. by rewrite app_nil_r. }
    rewrite Hall, Hs'.
    destruct (last_encode_error _ _ _), body; by simplify_eq.
Qed.

(** C3, as the handler has it: under [ContinueOnError], when [Gather]
    returns an error and no family, the handler responds with the error
    (status 500) and commits nothing; when it returns an error and some
    families, the handler goes on and encodes every one of them.  It then
    commits the success response whose body is what the encoders wrote
    for these families (compressed when gzip was negotiated), provided
    that no encoder failed or that the encoders wrote something; when an
    encoder failed and nothing was written, the response is, without
    compression, the last error of an encoder (status 500). *)
Theorem continue_on_gather_error (ctx : fasthttp.RequestCtx)
    (reg : Gatherer MetricFamily) (opts : HandlerOpts)
    (mfs : list MetricFamily) (err : error) :
  ErrorHandling opts = ContinueOnError →
  Gather reg = (mfs, Some err) →
  let r := serve Negotiate encode deflate ctx reg opts in
  let ct := Negotiate (convert_header ctx) in
  let decorated :=
    decorateFastHttpWriter ctx BufferWriter (DisableCompression opts) in
  (mfs = [] →
     r.1 = Return
     ∧ responder_ops (trace r.2)
       = [CtxError ("No metrics gathered, last error:"
                      +:+ nl +:+ nl +:+ err) 500]
     ∧ pool_ops (trace r.2) = [])
  ∧ (mfs ≠ [] →
     encoded_families (trace r.2) = mfs
     ∧ match last_encode_error encode ct mfs, payload encode ct mfs with
       | Some lastErr, [] =>
           decorated.1 = BufferWriter →
           r.1 = Return
           ∧ responder_ops (trace r.2)
             = [CtxError ("No metrics encoded, last error:"
                            +:+ nl +:+ nl +:+ lastErr) 500]
       | _, plain =>
           r.1 = Next ()
           ∧ responder_ops (trace r.2)
             = success_response ct decorated.2
                 (finalized deflate decorated.1 plain)
       end).
Proof.
  intros Hc Hg r ct decorated. split.
  - intros ->. subst r.
    rewrite serve_outcome, serve_trace. unfold run, gather_step.
    rewrite Hg, Hc. by destruct (ErrorLog opts).
  - intros Hne.
    destruct (continue_completes ctx reg opts mfs (Some err) Hc Hg)
      as [Hf H]; [by right|].
    split; [exact Hf|]. fold r ct decorated in H.
    destruct (last_encode_error encode ct mfs) as [lastErr|];
      [|by destruct (finalized _ _ _)].
    destruct (payload encode ct mfs) as [|c plain] eqn:Hp.
    + intros Hw. by rewrite Hw in H.
    + destruct (decorate_cases ctx (DisableCompression opts)) as [Hd|Hd];
        fold decorated in Hd; rewrite Hd in *; cbn [fst snd finalized] in *;
        [done|].
      pose proof (gzip_member_length deflate (c :: plain)) as Hlen.
      destruct (gzip_member deflate (c :: plain)); [cbn in Hlen; lia|done].
Qed.

(** With gzip negotiated the buffer is never empty after the close of the
    writer, so that under [ContinueOnError] the response is committed
    whatever the encoders do: the check for an empty buffer after errors
    never fires. *)
Lemma gzip_always_commits (ctx : fasthttp.RequestCtx)
    (reg : Gatherer MetricFamily) (opts : HandlerOpts)
    (mfs : list MetricFamily) (err : option error) :
  ErrorHandling opts = ContinueOnError →
  Gather reg = (mfs, err) →
  err = None ∨ mfs ≠ [] →
  decorateFastHttpWriter ctx BufferWriter (DisableCompression opts)
  = (GzipWriter BufferWriter, "gzip") →
  let r := serve Negotiate encode deflate ctx reg opts in
  let ct := Negotiate (convert_header ctx) in
  r.1 = Next ()
  ∧ responder_ops (trace r.2)
    = success_response ct "gzip" (gzip_member deflate (payload encode ct mfs)).
Proof.
  intros Hc Hg Hgo Hd r ct.
  destruct (continue_completes ctx reg opts mfs err Hc Hg Hgo) as [_ H].
  rewrite Hd in H. cbn [fst snd finalized] in H. fold ct in H.
  pose proof (gzip_member_length deflate (payload encode ct mfs)) as Hlen.
  destruct (gzip_member deflate (payload encode ct mfs)) as [|c body];
    [cbn in Hlen; lia|].
  by destruct (last_encode_error _ _ _).
Qed.

(** X8: without compression the check for an empty buffer does fire
    under [ContinueOnError]: when an encoder failed and the encoders
    wrote nothing at all, the handler returns after the error response
    with the last error of an encoder, and commits nothing. *)
Lemma plain_empty_buffer_is_error (ctx : fasthttp.RequestCtx)
    (reg : Gatherer MetricFamily) (opts : HandlerOpts)
    (mfs : list MetricFamily) (err : option error) (lastErr : error) :
  ErrorHandling opts = ContinueOnError →
  Gather reg = (mfs, err) →
  err = None ∨ mfs ≠ [] →
  decorateFastHttpWriter ctx BufferWriter (DisableCompression opts)
  = (BufferWriter, "") →
  let r := serve Negotiate encode deflate ctx reg opts in
  let ct := Negotiate (convert_header ctx) in
  last_encode_error encode ct mfs = Some lastErr →
  payload encode ct mfs = [] →
  r.1 = Return
  ∧ responder_ops (trace r.2)
    = [CtxError ("No metrics encoded, last error:"
                   +:+ nl +:+ nl +:+ lastErr) 500].
Proof.
  intros Hc Hg Hgo Hd r ct Hl Hp.
  destruct (continue_completes ctx reg opts mfs err Hc Hg Hgo) as [_ H].
  rewrite Hd in H. cbn [fst snd finalized] in H. fold ct in H.
  by rewrite Hl, Hp in H.
Qed.

(** ** The commit *)

Lemma not_commit_elem (tr : list (Event MetricFamily)) (body : list byte) :
  Forall (λ e, is_pool e = false ∧ is_commit e = false) tr →
  CtxWrite body ∉ tr.
Proof.
  intros H Hin. rewrite Forall_forall in H. by destruct (H _ Hin).
Qed.

(** C1: whenever the handler gets to write the body, the writer has been
    closed before (when it has a [Close]) and the length of the buffer
    has only been read after that; the response then gets the negotiated
    content type, the length of the body as it is after the close, the
    content encoding unless it is empty, and the body, which is what the
    encoders wrote, compressed when gzip was negotiated. *)
Theorem commit_after_close (ctx : fasthttp.RequestCtx)
    (reg : Gatherer MetricFamily) (opts : HandlerOpts) (body : list byte) :
  let r := serve Negotiate encode deflate ctx reg opts in
  let ct := Negotiate (convert_header ctx) in
  let decorated :=
    decorateFastHttpWriter ctx BufferWriter (DisableCompression opts) in
  CtxWrite body ∈ trace r.2 →
  r.1 = Next ()
  ∧ body = finalized deflate decorated.1 (payload encode ct (Gather reg).1)
  ∧ ∃ pre checks,
      trace r.2
      = pre
        ++ (if is_Closer decorated.1 then [Closed] else [])
        ++ checks
        ++ [ HeaderSet contentTypeHeader ct;
             BufLen (length body);
             HeaderSet contentLengthHeader (Sprint (length body)) ]
        ++ (if String.eqb decorated.2 "" then []
            else [HeaderSet contentEncodingHeader decorated.2])
        ++ [CtxWrite body; GiveBuf]
      ∧ Forall (λ e, is_commit e = false) pre
      ∧ (checks = [] ∨ checks = [BufLen (length body)]).
Proof.
  intros r ct decorated. subst r decorated.
  rewrite serve_outcome, serve_trace. unfold run.
  destruct (Gather reg) as [mfs err]. cbn [fst snd]. fold ct.
  pose proof (gather_step_kind opts mfs err) as Hg.
  destruct (gather_step opts mfs err) as [o gathered]. cbn [snd] in Hg.
  destruct (decorateFastHttpWriter _ _ _) as [writer encoding].
  cbn [fst snd].
  pose proof (loop_events_kind encode opts ct mfs) as Hl.
  assert (Forall (λ e : Event MetricFamily, is_commit e = false)
            (gathered ++ GetBuf :: loop_events encode opts ct mfs)) as Hpre.
  { apply Forall_app. split; [|constructor; [done|]];
      (eapply Forall_impl; [eassumption|]); by intros ? []. }
  assert (∀ tr, CtxWrite body ∈ gathered ++ GetBuf
                  :: loop_events encode opts ct mfs ++ tr →
                CtxWrite body ∈ tr) as Hin.
  { intros tr. rewrite elem_of_app, elem_of_cons, elem_of_app.
    intros [H|[H|[H|H]]]; [|done| |done].
    - by apply not_commit_elem in H.
    - by apply not_commit_elem in H. }
  destruct o as [[]| |v];
    [|by intros ?%not_commit_elem..].
  destruct (loop_outcome encode opts ct mfs None) as [lastErr| |v]; cbn [fst snd].
  - set (body' := finalized deflate writer (payload encode ct mfs)).
    destruct (commit_step_response ct writer encoding lastErr body')
      as [Hs _].
    destruct (commit_step _ _ _ _ _) as [o committed]. cbn [fst snd].
    intros H%Hin.
    assert (o = Next () ∧ body = body' ∧
            ∃ checks,
              committed
              = (if is_Closer writer then [Closed] else [])
                ++ checks
                ++ [ HeaderSet contentTypeHeader ct;
                     BufLen (length body);
                     HeaderSet contentLengthHeader (Sprint (length body)) ]
                ++ (if String.eqb encoding "" then []
                    else [HeaderSet contentEncodingHeader encoding])
                ++ [CtxWrite body]
              ∧ (checks = [] ∨ checks = [BufLen (length body)]))
      as (-> & <- & checks & -> & Hchecks).
    { clearbody body'.
      destruct lastErr as [lastErr|], body' as [|c b];
        simplify_eq;
        destruct (is_Closer writer), (String.eqb encoding "");
        cbn [app] in H;
        repeat (apply elem_of_cons in H as [H|H]; [try done|]);
        try (by apply elem_of_nil in H);
        simplify_eq; (split; [done|]); (split; [done|]);
        first [ by (exists []; split; [reflexivity | by left])
              | by (eexists [_]; split; [reflexivity | by right]) ]. }
    split; [done|]. split; [done|].
    exists (gathered ++ GetBuf :: loop_events encode opts ct mfs), checks.
    split; [|done].
    clear. do 3 (rewrite <- ?app_assoc; cbn [app]). reflexivity.
  - intros H%Hin. apply elem_of_cons in H as [H|H]; [done|].
    by apply elem_of_nil in H.
  - intros H%Hin. apply elem_of_cons in H as [H|H]; [done|].
    by apply elem_of_nil in H.
Qed.

End RunFacts.

(** ** Concrete runs *)

Lemma commit_after_close_witness :
  let r := Sample.handle Sample.gzip_accepted
             ([Sample.Good "up 1"; Sample.Good "down 0"], None)
             (Sample.no_log ContinueOnError) in
  let body :=
    gzip_member Sample.deflate (String.list_byte_of_string "up 1down 0") in
  CtxWrite body ∈ trace r.2
  ∧ r.1 = Next ()
  ∧ ∃ pre checks,
      trace r.2
      = pre ++ [Closed] ++ checks
        ++ [ HeaderSet "Content-Type" "text/plain; version=0.0.4";
             BufLen (length body);
             HeaderSet "Content-Length" (Sprint (length body)) ]
        ++ [HeaderSet "Content-Encoding" "gzip"]
        ++ [CtxWrite body; GiveBuf]
      ∧ Forall (λ e, is_commit e = false) pre
      ∧ (checks = [] ∨ checks = [BufLen (length body)]).
Proof.
  intros r body.
  assert (CtxWrite body ∈ trace r.2) as Hin.
  { vm_compute. do 9 apply list_elem_of_further. apply list_elem_of_here. }
  split; [exact Hin|].
  destruct (commit_after_close Sample.Negotiate Sample.encode Sample.deflate
              (Sample.ctx Sample.gzip_accepted)
              (mkGatherer ([Sample.Good "up 1"; Sample.Good "down 0"], None))
              (Sample.no_log ContinueOnError) body Hin)
    as (Ho & _ & Hshape).
  split; [exact Ho | exact Hshape].
Defined.

(** C2, at an input on which the handler does not do what is claimed:
    gzip is negotiated, errors are suppressed, and the encoder fails on
    every family before it writes anything.  The buffer is empty after
    the loop, but the close of the gzip writer puts an empty gzip member
    of 23 bytes into it, so that the handler commits a success response
    instead of the error response with the last error. *)
Theorem gzip_commits_after_all_failed :
  let r := Sample.handle Sample.gzip_accepted
             ([Sample.Empty; Sample.Empty], None)
             (Sample.with_log ContinueOnError) in
  let ct := "text/plain; version=0.0.4" in
  errors_met (trace r.2)
    = [ ("error encoding metric family:", "MetricFamily has no metrics");
        ("error encoding metric family:", "MetricFamily has no metrics") ]
  ∧ payload Sample.encode ct [Sample.Empty; Sample.Empty] = []
  ∧ r.1 = Next ()
  ∧ responder_ops (trace r.2)
    = [ HeaderSet "Content-Type" ct;
        HeaderSet "Content-Length" "23";
        HeaderSet "Content-Encoding" "gzip";
        CtxWrite (gzip_member Sample.deflate []) ].
Proof. vm_compute. repeat split. Qed.

(** The same families without compression: the error response. *)
Example plain_fails_after_all_failed :
  let r := Sample.handle [] ([Sample.Empty; Sample.Empty], None)
             (Sample.with_log ContinueOnError) in
  r.1 = Return
  ∧ responder_ops (trace r.2)
    = [CtxError ("No metrics encoded, last error:" +:+ nl +:+ nl
                   +:+ "MetricFamily has no metrics") 500].
Proof. vm_compute. repeat split. Qed.

(** A gathering error with families of which none can be encoded: no
    success response. *)
Lemma continue_may_respond_with_error :
  let r := Sample.handle [] ([Sample.Empty], Some "collector failed")
             (Sample.no_log ContinueOnError) in
  ¬ (r.1 = Next () ∧ ∃ body, CtxWrite body ∈ trace r.2).
Proof. vm_compute. intros [H _]. discriminate H. Qed.

Lemma continue_on_gather_error_witness :
  let opts := Sample.no_log ContinueOnError in
  let mfs := [Sample.Good "up 1"; Sample.Broken "do"] in
  let reg := mkGatherer (mfs, Some "collector failed") in
  let r := Sample.handle [] (Gather reg) opts in
  let body := String.list_byte_of_string "up 1do" in
  ErrorHandling opts = ContinueOnError
  ∧ Gather reg = (mfs, Some "collector failed")
  ∧ encoded_families (trace r.2) = mfs
  ∧ r.1 = Next ()
  ∧ responder_ops (trace r.2)
    = success_response "text/plain; version=0.0.4" "" body.
Proof.
  intros opts mfs reg r body.
  split; [reflexivity|]. split; [reflexivity|].
  destruct (continue_on_gather_error Sample.Negotiate Sample.encode
              Sample.deflate (Sample.ctx []) reg opts mfs "collector failed"
              eq_refl eq_refl) as [_ H].
  destruct (H ltac:(discriminate)) as [Hf Hb].
  split; [exact Hf | exact Hb].
Defined.

Lemma http_error_on_error_witness :
  let opts := Sample.with_log HTTPErrorOnError in
  let mfs := [Sample.Good "up 1"; Sample.Broken "do"; Sample.Good "x 2"] in
  let reg := mkGatherer (mfs, None) in
  let ct := Sample.Negotiate (convert_header (Sample.ctx [])) in
  let r := Sample.handle [] (Gather reg) opts in
  ErrorHandling opts = HTTPErrorOnError
  ∧ Exists (λ mf, is_Some (Sample.encode ct mf).2) mfs
  ∧ ∃ err pre mf post,
      mfs = pre ++ mf :: post
      ∧ Forall (λ mf, (Sample.encode ct mf).2 = None) pre
      ∧ (Sample.encode ct mf).2 = Some err
      ∧ r.1 = Return
      ∧ responder_ops (trace r.2)
        = [CtxError ("An error has occurred during metrics encoding:"
                       +:+ nl +:+ nl +:+ err) 500]
      ∧ encoded_families (trace r.2) = pre ++ [mf].
Proof.
  intros opts mfs reg ct r.
  assert (Exists (λ mf, is_Some (Sample.encode ct mf).2) mfs) as Hex.
  { apply Exists_cons_tl, Exists_cons_hd. by eexists. }
  split; [reflexivity|]. split; [exact Hex|].
  exact (proj2 (http_error_on_error Sample.Negotiate Sample.encode
                  Sample.deflate (Sample.ctx []) reg opts eq_refl)
               eq_refl Hex).
Defined.

(** The text of the error response is not the bare message of the
    error. *)
Lemma gather_error_body_is_prefixed :
  let r := Sample.handle [] ([], Some "collector failed")
             (Sample.no_log HTTPErrorOnError) in
  ¬ (responder_ops (trace r.2) = [CtxError "collector failed" 500]).
Proof. vm_compute. intros H. discriminate H. Qed.

Lemma gather_error_response_witness :
  let opts := Sample.no_log HTTPErrorOnError in
  let reg := mkGatherer ([], Some "collector failed") in
  let r := Sample.handle [] (Gather reg) opts in
  Gather reg = ([], Some "collector failed")
  ∧ ErrorHandling opts = HTTPErrorOnError
  ∧ r.1 = Return
  ∧ responder_ops (trace r.2)
    = [CtxError ("An error has occurred during metrics gathering:"
                   +:+ nl +:+ nl +:+ "collector failed") 500]
  ∧ (∀ value, HeaderSet contentTypeHeader value ∉ trace r.2)
  ∧ pool_ops (trace r.2) = [].
Proof.
  intros opts reg r.
  split; [reflexivity|]. split; [reflexivity|].
  exact (gather_error_response Sample.Negotiate Sample.encode Sample.deflate
           (Sample.ctx []) reg opts "collector failed" eq_refl eq_refl).
Defined.

Lemma errors_logged_once_witness :
  let opts := Sample.with_log ContinueOnError in
  let r := Sample.handle []
             ([Sample.Empty; Sample.Good "up 1"; Sample.Broken "do"],
              Some "collector failed") opts in
  ErrorLog opts = true
  ∧ log_lines (trace r.2) = errors_met (trace r.2)
  ∧ length (log_lines (trace r.2)) = 3%nat.
Proof.
  intros opts r. split; [reflexivity|]. split; [|reflexivity].
  exact (errors_logged_once Sample.Negotiate Sample.encode Sample.deflate
           (Sample.ctx [])
           (mkGatherer ([Sample.Empty; Sample.Good "up 1"; Sample.Broken "do"],
                        Some "collector failed"))
           opts eq_refl).
Defined.

Lemma buffer_given_back_once_witness :
  let commit :=
    trace (Sample.handle [] ([Sample.Good "up 1"], None)
             (Sample.no_log HTTPErrorOnError)).2 in
  let empty :=
    trace (Sample.handle [] ([Sample.Empty], None)
             (Sample.no_log ContinueOnError)).2 in
  let aborted :=
    trace (Sample.handle [] ([Sample.Broken "do"; Sample.Good "up 1"], None)
             (Sample.no_log HTTPErrorOnError)).2 in
  let panicked :=
    trace (Sample.handle Sample.gzip_accepted ([Sample.Broken "do"], None)
             (Sample.no_log PanicOnError)).2 in
  (GetBuf ∈ commit ∧ pool_ops commit = [GetBuf; GiveBuf]
   ∧ last commit = Some GiveBuf)
  ∧ (GetBuf ∈ empty ∧ pool_ops empty = [GetBuf; GiveBuf]
     ∧ last empty = Some GiveBuf)
  ∧ (GetBuf ∈ aborted ∧ pool_ops aborted = [GetBuf; GiveBuf]
     ∧ last aborted = Some GiveBuf)
  ∧ (GetBuf ∈ panicked ∧ pool_ops panicked = [GetBuf; GiveBuf]
     ∧ last panicked = Some GiveBuf).
Proof.
  intros commit empty aborted panicked.
  assert (∀ h reg opts,
            GetBuf ∈ trace (Sample.handle h reg opts).2 →
            GetBuf ∈ trace (Sample.handle h reg opts).2
            ∧ pool_ops (trace (Sample.handle h reg opts).2)
              = [GetBuf; GiveBuf]
            ∧ last (trace (Sample.handle h reg opts).2) = Some GiveBuf) as H.
  { intros h reg opts Hin. split; [exact Hin|].
    exact (buffer_given_back_once Sample.Negotiate Sample.encode
             Sample.deflate (Sample.ctx h) (mkGatherer reg) opts Hin). }
  repeat split; try apply H;
    vm_compute; apply list_elem_of_further, list_elem_of_here.
Defined.

(** The handler with the default options: no compression is asked for,
    the body is the plain exposition. *)
Example default_handler_plain :
  FastHttpHandler Sample.Negotiate Sample.encode Sample.deflate
    (mkGatherer ([Sample.Good "up 1"], None)) (Sample.ctx []) start
  = (Next (),
     mkWorld
       [ Gathered None; GetBuf; Encoded (Sample.Good "up 1") None;
         HeaderSet "Content-Type" "text/plain; version=0.0.4";
         BufLen 4; HeaderSet "Content-Length" "4";
         CtxWrite (String.list_byte_of_string "up 1"); GiveBuf ]
       [] gzip.NewWriter).
Proof. reflexivity. Qed.

(** A panic inside the loop: the buffer goes back to the pool. *)
Example panic_gives_buffer_back :
  Sample.handle [] ([Sample.Good "up 1"; Sample.Empty], None)
    (Sample.with_log PanicOnError)
  = (Panic "MetricFamily has no metrics",
     mkWorld
       [ Gathered None; GetBuf; Encoded (Sample.Good "up 1") None;
         Encoded Sample.Empty (Some "MetricFamily has no metrics");
         Println "error encoding metric family:" "MetricFamily has no metrics";
         GiveBuf ]
       [] gzip.NewWriter).
Proof. reflexivity. Qed.

(** A panic on the error of [Gather] comes before any buffer is taken. *)
Example panic_on_gather :
  Sample.handle [] ([Sample.Good "up 1"], Some "collector failed")
    (Sample.no_log PanicOnError)
  = (Panic "collector failed",
     mkWorld [Gathered (Some "collector failed")] [] gzip.NewWriter).
Proof. reflexivity. Qed.

(** * Further properties of the handler *)

Section MoreLoopFacts.

Context {MetricFamily : Type}.
Variable encode : Format → MetricFamily → list byte * option error.

(** The families the events of the loop name are those the loop gets
    to. *)
Lemma encoded_loop_done (opts : HandlerOpts) (ct : Format)
    (mfs : list MetricFamily) :
  encoded_families (loop_events encode opts ct mfs)
  = loop_done encode opts ct mfs.
Proof.
  induction mfs as [|mf mfs IH]; [done|].
  cbn [loop_events loop_done]. unfold encoded_families in *.
  destruct (encode ct mf).2 as [err|];
    [destruct (ErrorLog opts), (ErrorHandling opts)|];
    cbn [omap list_omap app]; by rewrite ?IH.
Qed.

Lemma loop_done_prefix (opts : HandlerOpts) (ct : Format)
    (mfs : list MetricFamily) :
  loop_done encode opts ct mfs `prefix_of` mfs.
Proof.
  induction mfs as [|mf mfs IH]; [done|].
  cbn [loop_done].
  destruct (encode ct mf).2 as [err|]; [destruct (ErrorHandling opts)|];
    first [ by apply prefix_cons
          | apply prefix_cons, prefix_nil ].
Qed.

(** How the loop can be left, and what it has done to the response
    then. *)
Lemma loop_summary (opts : HandlerOpts) (ct : Format)
    (mfs : list MetricFamily) (lastErr : option error) :
  match loop_outcome encode opts ct mfs lastErr with
  | Next lastErr' =>
      responder_ops (loop_events encode opts ct mfs) = []
      ∧ (ErrorHandling opts ≠ ContinueOnError →
         first_encode_error encode ct mfs = None ∧ lastErr' = lastErr)
  | Return =>
      ErrorHandling opts = HTTPErrorOnError
      ∧ ∃ err,
          first_encode_error encode ct mfs = Some err
          ∧ responder_ops (loop_events encode opts ct mfs)
            = [CtxError ("An error has occurred during metrics encoding:"
                           +:+ nl +:+ nl +:+ err) 500]
  | Panic v =>
      ErrorHandling opts = PanicOnError
      ∧ first_encode_error encode ct mfs = Some v
      ∧ responder_ops (loop_events encode opts ct mfs) = []
  end.
Proof.
  revert lastErr. unfold first_encode_error.
  induction mfs as [|mf mfs IH]; intros lastErr; [done|].
  cbn [loop_outcome loop_events omap list_omap].
  destruct (encode ct mf).2 as [err|].
  - destruct (ErrorHandling opts) eqn:Hp.
    + split; [done|]. exists err. split; [done|].
      rewrite responder_ops_cons, responder_ops_app.
      by destruct (ErrorLog opts).
    + specialize (IH (Some err)).
      destruct (loop_outcome encode opts ct mfs (Some err));
        [|by destruct IH..].
      destruct IH as [IH _]. split; [|done].
      rewrite responder_ops_cons, responder_ops_app, IH.
      by destruct (ErrorLog opts).
    + split; [done|]. split; [done|].
      rewrite responder_ops_cons, responder_ops_app.
      by destruct (ErrorLog opts).
  - specialize (IH lastErr). cbn [head].
    destruct (loop_outcome encode opts ct mfs lastErr);
      rewrite responder_ops_cons; cbn [is_responder]; exact IH.
Qed.

(** Under [ContinueOnError] the log gets a line for every family the
    encoder fails on. *)
Lemma loop_continue_log (opts : HandlerOpts) (ct : Format)
    (mfs : list MetricFamily) :
  ErrorHandling opts = ContinueOnError →
  ErrorLog opts = true →
  log_lines (loop_events encode opts ct mfs)
  = map (λ err, ("error encoding metric family:", err))
        (omap (λ mf, (encode ct mf).2) mfs).
Proof.
  intros Hc Hl. induction mfs as [|mf mfs IH]; [done|].
  cbn [loop_events omap list_omap]. rewrite Hc, Hl.
  unfold log_lines in *.
  destruct (encode ct mf).2 as [err|]; cbn [omap list_omap app map];
    by rewrite IH.
Qed.

End MoreLoopFacts.

Section MoreRunFacts.

Context {MetricFamily : Type}.
Variable Negotiate : http.Header → Format.
Variable encode : Format → MetricFamily → list byte * option error.
Variable deflate : list byte → list byte.

(** The three ways a call can end, with what led there and what the
    response has got. *)
Lemma serve_summary (ctx : fasthttp.RequestCtx) (reg : Gatherer MetricFamily)
    (opts : HandlerOpts) :
  let r := serve Negotiate encode deflate ctx reg opts in
  let ct := Negotiate (convert_header ctx) in
  let decorated :=
    decorateFastHttpWriter ctx BufferWriter (DisableCompression opts) in
  let mfs := (Gather reg).1 in
  let err := (Gather reg).2 in
  match r.1 with
  | Next _ =>
      (err = None ∨ (ErrorHandling opts = ContinueOnError ∧ mfs ≠ []))
      ∧ (ErrorHandling opts ≠ ContinueOnError →
         first_encode_error encode ct mfs = None)
      ∧ encoded_families (trace r.2) = mfs
      ∧ responder_ops (trace r.2)
        = success_response ct decorated.2
            (finalized deflate decorated.1 (payload encode ct mfs))
  | Return =>
      ErrorHandling opts ≠ PanicOnError
      ∧ ∃ msg, responder_ops (trace r.2) = [CtxError msg 500]
  | Panic v =>
      ErrorHandling opts = PanicOnError
      ∧ (err = Some v
         ∨ (err = None ∧ first_encode_error encode ct mfs = Some v))
      ∧ responder_ops (trace r.2) = []
  end.
Proof.
  intros r ct decorated mfs err. subst r decorated mfs err.
  rewrite serve_outcome, serve_trace. unfold run.
  destruct (Gather reg) as [mfs err]. cbn [fst snd]. fold ct.
  assert (match (gather_step opts mfs err).1 with
          | Next _ =>
              (err = None ∨ (ErrorHandling opts = ContinueOnError ∧ mfs ≠ []))
              ∧ responder_ops (gather_step opts mfs err).2 = []
              ∧ encoded_families (gather_step opts mfs err).2 = []
          | Return =>
              ErrorHandling opts ≠ PanicOnError
              ∧ ∃ msg, responder_ops (gather_step opts mfs err).2
                       = [CtxError msg 500]
          | Panic v =>
              ErrorHandling opts = PanicOnError ∧ err = Some v
              ∧ responder_ops (gather_step opts mfs err).2 = []
          end) as Hg.
  { unfold gather_step.
    destruct err as [err|]; [|cbn; by auto].
    destruct (ErrorHandling opts) eqn:Hp, mfs as [|mf mfs],
      (ErrorLog opts); cbn [fst snd]; naive_solver. }
  destruct (gather_step opts mfs err) as [[[]| |v] gathered];
    cbn [fst snd] in *; [|done|destruct Hg as (? & ? & ?); auto].
  destruct Hg as (Hgo & Hgr & Hge).
  destruct (decorateFastHttpWriter _ _ _) as [writer encoding].
  cbn [fst snd].
  pose proof (loop_summary encode opts ct mfs None) as Hl.
  pose proof (encoded_loop_done encode opts ct mfs) as He.
  destruct (loop_outcome encode opts ct mfs None) as [lastErr| |v] eqn:Ho.
  - destruct Hl as [Hlr Hlf].
    rewrite (loop_outcome_Next _ _ _ _ _ _ Ho) in He.
    destruct (commit_step_response (MetricFamily := MetricFamily)
                ct writer encoding lastErr
                (finalized deflate writer (payload encode ct mfs)))
      as [Hs Hs'].
    destruct (commit_step _ _ _ _ _) as [o committed].
    cbn [fst snd] in *.
    assert (responder_ops
              (gathered ++ GetBuf :: loop_events encode opts ct mfs
               ++ committed ++ [GiveBuf]) = responder_ops committed) as ->.
    { rewrite responder_ops_app, (responder_ops_cons GetBuf),
        !responder_ops_app, Hgr, Hlr. cbn. by rewrite app_nil_r. }
    rewrite Hs'.
    destruct lastErr as [lastErr|],
      (finalized deflate writer (payload encode ct mfs)) as [|c body] eqn:Hb;
      simplify_eq.
    + split; [|eauto]. intros Hp.
      destruct Hlf as [_ ?]; [by rewrite Hp|done].
    + split; [done|]. split; [intros Hn; by destruct (Hlf Hn)|]. split; [|done].
      rewrite !encoded_families_app.
      change (encoded_families (GetBuf :: ?l)) with (encoded_families l).
      rewrite !encoded_families_app, Hge, He.
      destruct (is_Closer writer), (String.eqb encoding "");
        cbn; by rewrite app_nil_r.
    + split; [done|]. split; [intros Hn; by destruct (Hlf Hn)|]. split; [|done].
      rewrite !encoded_families_app.
      change (encoded_families (GetBuf :: ?l)) with (encoded_families l).
      rewrite !encoded_families_app, Hge, He.
      destruct (is_Closer writer), (String.eqb encoding "");
        cbn; by rewrite app_nil_r.
    + split; [done|]. split; [intros Hn; by destruct (Hlf Hn)|]. split; [|done].
      rewrite !encoded_families_app.
      change (encoded_families (GetBuf :: ?l)) with (encoded_families l).
      rewrite !encoded_families_app, Hge, He.
      destruct (is_Closer writer), (String.eqb encoding "");
        cbn; by rewrite app_nil_r.
  - destruct Hl as (Hh & e & _ & Hlr). cbn [fst snd].
    split; [by rewrite Hh|]. eexists.
    rewrite responder_ops_app, (responder_ops_cons GetBuf),
      responder_ops_app, Hgr, Hlr. reflexivity.
  - destruct Hl as (Hp & Hf & Hlr). cbn [fst snd].
    split; [done|]. split.
    + destruct Hgo as [->|[Hc _]]; [by right|congruence].
    + by rewrite responder_ops_app, (responder_ops_cons GetBuf),
        responder_ops_app, Hgr, Hlr.
Qed.

(** X1: a call ends in one of three ways, and the response gets what
    belongs to that way and nothing else: when the handler runs to its
    end, the success response with all that the encoders wrote; when it
    returns early, one error response of status 500; when it panics,
    nothing. *)
Theorem one_terminal_response (ctx : fasthttp.RequestCtx)
    (reg : Gatherer MetricFamily) (opts : HandlerOpts) :
  let r := serve Negotiate encode deflate ctx reg opts in
  let ct := Negotiate (convert_header ctx) in
  let decorated :=
    decorateFastHttpWriter ctx BufferWriter (DisableCompression opts) in
  match r.1 with
  | Next _ =>
      responder_ops (trace r.2)
      = success_response ct decorated.2
          (finalized deflate decorated.1 (payload encode ct (Gather reg).1))
  | Return => ∃ msg, responder_ops (trace r.2) = [CtxError msg 500]
  | Panic _ => responder_ops (trace r.2) = []
  end.
Proof.
  intros r ct decorated.
  pose proof (serve_summary ctx reg opts) as H. cbn zeta in H.
  fold r ct decorated in H.
  destruct r.1; [by destruct H as (_ & _ & _ & H) | by destruct H
                | by destruct H as (_ & _ & H)].
Qed.

(** X2: when neither [Gather] nor an encoder returns an error, the
    handler commits under every error handling: every family is encoded,
    the body is what the encoders wrote (compressed when gzip was
    negotiated), nothing is logged, and the buffer goes back to the
    pool. *)
Theorem clean_run_commits (ctx : fasthttp.RequestCtx)
    (reg : Gatherer MetricFamily) (opts : HandlerOpts)
    (mfs : list MetricFamily) :
  Gather reg = (mfs, None) →
  let r := serve Negotiate encode deflate ctx reg opts in
  let ct := Negotiate (convert_header ctx) in
  let decorated :=
    decorateFastHttpWriter ctx BufferWriter (DisableCompression opts) in
  first_encode_error encode ct mfs = None →
  r.1 = Next ()
  ∧ encoded_families (trace r.2) = mfs
  ∧ responder_ops (trace r.2)
    = success_response ct decorated.2
        (finalized deflate decorated.1 (payload encode ct mfs))
  ∧ log_lines (trace r.2) = []
  ∧ pool_ops (trace r.2) = [GetBuf; GiveBuf].
Proof.
  intros Hg r ct decorated Hok.
  destruct (no_error_commits Negotiate encode deflate ctx reg opts mfs Hg Hok)
    as [Ho Hr].
  fold r ct decorated in Ho, Hr.
  pose proof (serve_summary ctx reg opts) as H. cbn zeta in H.
  fold r ct in H. rewrite Ho, Hg in H. destruct H as (_ & _ & He & _).
  split; [done|]. split; [done|]. split; [done|]. subst r.
  rewrite serve_trace. unfold run, gather_step. rewrite Hg. fold ct.
  destruct (decorateFastHttpWriter _ _ _) as [writer encoding].
  destruct (loop_no_error encode opts ct mfs None Hok) as [-> Hl].
  pose proof (loop_events_logged encode opts ct mfs) as Hll.
  assert (errors_met (loop_events encode opts ct mfs) = []) as Hle.
  { clear -Hok. unfold first_encode_error in Hok.
    induction mfs as [|mf mfs IH]; [done|].
    cbn [omap list_omap loop_events] in *.
    destruct (encode ct mf).2; [done|]. by apply IH. }
  rewrite Hle in Hll.
  assert (log_lines (loop_events encode opts ct mfs) = []) as Hll'.
  { by destruct (ErrorLog opts). }
  pose proof (loop_events_kind encode opts ct mfs) as Hk.
  destruct (commit_step_kind (MetricFamily := MetricFamily)
              ct writer encoding None
              (finalized deflate writer (payload encode ct mfs)))
    as (Hp & Hcl & _).
  destruct (commit_step _ _ _ _ _) as [o committed]. cbn [snd] in *.
  split.
  - rewrite !log_lines_app.
    change (log_lines (GetBuf :: ?l)) with (log_lines l).
    by rewrite !log_lines_app, Hll', Hcl.
  - apply pool_ops_none in Hp. cbn [app].
    rewrite !pool_ops_cons. cbn [is_pool].
    rewrite !pool_ops_app, Hp.
    rewrite (pool_ops_none (loop_events encode opts ct mfs)); [done|].
    eapply Forall_impl; [exact Hk|]. by intros ? [].
Qed.

(** X3: under [PanicOnError] the handler panics with the error of
    [Gather], or else with the first error of an encoder, and the
    response has got nothing by then. *)
Theorem panics_with_first_error (ctx : fasthttp.RequestCtx)
    (reg : Gatherer MetricFamily) (opts : HandlerOpts) (v : error) :
  ErrorHandling opts = PanicOnError →
  let r := serve Negotiate encode deflate ctx reg opts in
  let ct := Negotiate (convert_header ctx) in
  (Gather reg).2 = Some v
  ∨ ((Gather reg).2 = None
     ∧ first_encode_error encode ct (Gather reg).1 = Some v) →
  r.1 = Panic v ∧ responder_ops (trace r.2) = [].
Proof.
  intros Hp r ct Herr.
  pose proof (serve_summary ctx reg opts) as H. cbn zeta in H.
  fold r ct in H. destruct r.1 as [[]| |v'].
  - destruct H as (Hgo & Hf & _). exfalso.
    assert (first_encode_error encode ct (Gather reg).1 = None) as Hn.
    { apply Hf. by rewrite Hp. }
    destruct Hgo as [Hgo|[Hc _]]; [|congruence].
    destruct Herr as [?|[_ ?]]; congruence.
  - by destruct H.
  - destruct H as (_ & Hv & Hr). split; [|done]. f_equal.
    destruct Hv as [?|[? ?]], Herr as [?|[? ?]]; congruence.
Qed.

(** X4: the handler panics under [PanicOnError] only. *)
Theorem panics_only_when_asked (ctx : fasthttp.RequestCtx)
    (reg : Gatherer MetricFamily) (opts : HandlerOpts) (v : error) :
  (serve Negotiate encode deflate ctx reg opts).1 = Panic v →
  ErrorHandling opts = PanicOnError.
Proof.
  intros Hv.
  pose proof (serve_summary ctx reg opts) as H. cbn zeta in H.
  rewrite Hv in H. by destruct H.
Qed.

(** X5: under the two policies that abort on an error, a committed
    response is a complete one: the handler runs to its end only when
    neither [Gather] nor any encoder returned an error, after every
    family was encoded. *)
Theorem success_means_no_error (ctx : fasthttp.RequestCtx)
    (reg : Gatherer MetricFamily) (opts : HandlerOpts) :
  ErrorHandling opts ≠ ContinueOnError →
  let r := serve Negotiate encode deflate ctx reg opts in
  let ct := Negotiate (convert_header ctx) in
  r.1 = Next () →
  (Gather reg).2 = None
  ∧ first_encode_error encode ct (Gather reg).1 = None
  ∧ encoded_families (trace r.2) = (Gather reg).1.
Proof.
  intros Hn r ct Ho.
  pose proof (serve_summary ctx reg opts) as H. cbn zeta in H.
  fold r ct in H. rewrite Ho in H. destruct H as (Hgo & Hf & He & _).
  split; [by destruct Hgo as [?|[? _]]|]. split; [by apply Hf | done].
Qed.

(** X6: under [ContinueOnError] with a log sink no error is dropped:
    once the gathering lets the handler go on, the log holds the line
    for the error of [Gather], if there is one, and then one line for
    every family the encoder fails on, in the order of the families. *)
Theorem continue_logs_every_failure (ctx : fasthttp.RequestCtx)
    (reg : Gatherer MetricFamily) (opts : HandlerOpts)
    (mfs : list MetricFamily) (err : option error) :
  ErrorHandling opts = ContinueOnError →
  ErrorLog opts = true →
  Gather reg = (mfs, err) →
  err = None ∨ mfs ≠ [] →
  let r := serve Negotiate encode deflate ctx reg opts in
  let ct := Negotiate (convert_header ctx) in
  log_lines (trace r.2)
  = match err with
    | Some err => [("error gathering metrics:", err)]
    | None => []
    end
    ++ map (λ err, ("error encoding metric family:", err))
           (omap (λ mf, (encode ct mf).2) mfs).
Proof.
  intros Hc Hl Hg Hgo r ct. subst r.
  rewrite serve_trace. unfold run. rewrite Hg. fold ct.
  assert (∃ gathered,
            gather_step opts mfs err = (Next (), gathered)
            ∧ log_lines gathered
              = match err with
                | Some err => [("error gathering metrics:", err)]
                | None => []
                end) as (gathered & -> & Hgl).
  { unfold gather_step. rewrite Hc, Hl.
    destruct err as [err|]; [|by eexists].
    destruct Hgo as [|Hne]; [done|]. destruct mfs; [done|]. by eexists. }
  destruct (decorateFastHttpWriter _ _ _) as [writer encoding].
  destruct (loop_continue encode opts ct mfs None Hc) as (-> & _ & _).
  destruct (commit_step_kind (MetricFamily := MetricFamily)
              ct writer encoding
              match last_encode_error encode ct mfs with
              | Some e => Some e
              | None => None
              end
              (finalized deflate writer (payload encode ct mfs)))
    as (_ & Hcl & _).
  destruct (commit_step _ _ _ _ _) as [o committed]. cbn [snd] in *.
  rewrite !log_lines_app.
  change (log_lines (GetBuf :: ?l)) with (log_lines l).
  rewrite !log_lines_app, Hgl, Hcl,
    (loop_continue_log encode opts ct mfs Hc Hl).
  cbn. by rewrite app_nil_r.
Qed.

(** X7: the families are encoded in the order in which [Gather] returned
    them, none twice and none skipped: the families [Encode] was called
    for are a prefix of the gathered ones under every error handling. *)
Theorem families_encoded_in_order (ctx : fasthttp.RequestCtx)
    (reg : Gatherer MetricFamily) (opts : HandlerOpts) :
  encoded_families (trace (serve Negotiate encode deflate ctx reg opts).2)
  `prefix_of` (Gather reg).1.
Proof.
  rewrite serve_trace. unfold run.
  destruct (Gather reg) as [mfs err]. cbn [fst].
  set (ct := Negotiate (convert_header ctx)).
  assert (encoded_families (gather_step opts mfs err).2 = []) as Hg.
  { unfold gather_step.
    destruct err as [err|]; [|done].
    by destruct (ErrorHandling opts), mfs, (ErrorLog opts). }
  destruct (gather_step opts mfs err) as [o gathered]. cbn [snd] in Hg.
  destruct (decorateFastHttpWriter _ _ _) as [writer encoding].
  pose proof (encoded_loop_done encode opts ct mfs) as He.
  pose proof (loop_done_prefix encode opts ct mfs) as Hp.
  destruct o as [[]| |v]; cbn [snd]; [|rewrite Hg; apply prefix_nil..].
  destruct (loop_outcome encode opts ct mfs None) as [lastErr| |v].
  - destruct (commit_step_response (MetricFamily := MetricFamily)
                ct writer encoding lastErr
                (finalized deflate writer (payload encode ct mfs)))
      as [Hs _].
    destruct (commit_step _ _ _ _ _) as [o committed]. cbn [snd].
    assert (encoded_families committed = []) as Hc.
    { destruct lastErr, (finalized _ _ _), (is_Closer writer),
        (String.eqb encoding ""); by simplify_eq. }
    rewrite !encoded_families_app.
    change (encoded_families (GetBuf :: ?l)) with (encoded_families l).
    rewrite !encoded_families_app, Hg, He, Hc. cbn.
    by rewrite app_nil_r.
  - cbn [snd]. rewrite !encoded_families_app.
    change (encoded_families (GetBuf :: ?l)) with (encoded_families l).
    rewrite !encoded_families_app, Hg, He. cbn. by rewrite app_nil_r.
  - cbn [snd]. rewrite !encoded_families_app.
    change (encoded_families (GetBuf :: ?l)) with (encoded_families l).
    rewrite !encoded_families_app, Hg, He. cbn. by rewrite app_nil_r.
Qed.

End MoreRunFacts.

(** ** Further properties of the negotiation of the encoding *)

(** X9: the encoding and the writer [decorateFastHttpWriter] returns
    belong together: either the writer is the given one and the encoding
    is empty, or compression is enabled, the writer is a gzip writer on
    top of the given one, and the encoding is "gzip". *)
Theorem decorate_label_matches_writer
    (ctx : fasthttp.RequestCtx) (writer : Writer) (disabled : bool) :
  decorateFastHttpWriter ctx writer disabled = (writer, "")
  ∨ (disabled = false
     ∧ decorateFastHttpWriter ctx writer disabled
       = (GzipWriter writer, "gzip")).
Proof.
  destruct disabled; [by left|]. rewrite decorate_existsb.
  destruct (existsb _ _); auto.
Qed.

Lemma Peek_absent (h : fasthttp.RequestHeader) (key : string) :
  Forall (λ kv, kv.1 ≠ key) h → fasthttp.Peek h key = "".
Proof.
  induction 1 as [|[k v] h Hk _ IH]; [done|].
  cbn [fasthttp.Peek]. by rewrite bool_decide_eq_false_2.
Qed.

Lemma Peek_first (pre post : fasthttp.RequestHeader) (key value : string) :
  Forall (λ kv, kv.1 ≠ key) pre →
  fasthttp.Peek (pre ++ (key, value) :: post) key = value.
Proof.
  induction 1 as [|[k v] h Hk _ IH]; cbn [app fasthttp.Peek].
  - by rewrite bool_decide_eq_true_2.
  - by rewrite bool_decide_eq_false_2.
Qed.

Lemma Peek_single (key value : string) :
  fasthttp.Peek [(key, value)] key = value.
Proof. apply (Peek_first [] []). constructor. Qed.

(** X10: a request without an Accept-Encoding header gets no
    compression: the writer is the given one and the encoding is empty,
    whether compression is disabled or not. *)
Theorem no_accept_encoding_no_gzip
    (ctx : fasthttp.RequestCtx) (writer : Writer) (disabled : bool) :
  Forall (λ kv, kv.1 ≠ "Accept-Encoding")
         (fasthttp.Header (fasthttp.Request_ ctx)) →
  decorateFastHttpWriter ctx writer disabled = (writer, "").
Proof.
  intros Habs. destruct disabled; [done|].
  rewrite decorate_existsb. unfold acceptEncodingHeader.
  by rewrite (Peek_absent _ _ Habs).
Qed.

(** X11: of several Accept-Encoding headers the first one decides: the
    result for a request is that for a request with this header only. *)
Theorem first_accept_encoding_decides
    (pre post : fasthttp.RequestHeader) (value : string)
    (writer : Writer) (disabled : bool) :
  Forall (λ kv, kv.1 ≠ "Accept-Encoding") pre →
  decorateFastHttpWriter
    (request (pre ++ ("Accept-Encoding", value) :: post)) writer disabled
  = decorateFastHttpWriter
      (request [("Accept-Encoding", value)]) writer disabled.
Proof.
  intros Hpre. destruct disabled; [done|].
  rewrite !decorate_existsb. unfold acceptEncodingHeader, request.
  cbn [fasthttp.Header fasthttp.Request_].
  rewrite (Peek_first pre post _ _ Hpre). by rewrite Peek_single.
Qed.

Lemma Split_not_nil (s : string) (sep : ascii) : strings.Split s sep ≠ [].
Proof.
  destruct s as [|c s]; [done|]. cbn [strings.Split].
  destruct (Ascii.eqb c sep); [done|]. by destruct (strings.Split s sep).
Qed.

(** Splitting goes through a separator: the parts of [a], then those of
    [b]. *)
Lemma Split_app (a b : string) (sep : ascii) :
  strings.Split (a +:+ String sep b) sep
  = strings.Split a sep ++ strings.Split b sep.
Proof.
  induction a as [|c a IH].
  - change ("" +:+ String sep b) with (String sep b).
    cbn [strings.Split]. by rewrite Ascii.eqb_refl.
  - change (String c a +:+ String sep b) with (String c (a +:+ String sep b)).
    cbn [strings.Split]. rewrite IH.
    destruct (Ascii.eqb c sep); [done|].
    pose proof (Split_not_nil a sep).
    by destruct (strings.Split a sep).
Qed.

(** X12: the entries of an Accept-Encoding value are looked at one by
    one, whatever stands around them: gzip is negotiated for two values
    joined by a comma exactly when it is negotiated for one of them. *)
Theorem comma_parts_independent (a b : string) (writer : Writer) :
  let encoding value :=
    (decorateFastHttpWriter
       (request [("Accept-Encoding", value)]) writer false).2 in
  encoding (a +:+ "," +:+ b) = "gzip"
  ↔ encoding a = "gzip" ∨ encoding b = "gzip".
Proof.
  intros encoding.
  assert (∀ value,
            encoding value = "gzip"
            ↔ existsb names_gzip (strings.Split value ","%char) = true)
    as Henc.
  { intros value. subst encoding. cbn beta. rewrite decorate_existsb.
    unfold acceptEncodingHeader, request.
    cbn [fasthttp.Header fasthttp.Request_].
    rewrite Peek_single. by destruct (existsb _ _). }
  rewrite !Henc.
  change (a +:+ "," +:+ b) with (a +:+ String ","%char b).
  by rewrite Split_app, existsb_app, orb_true_iff.
Qed.

(** ** Further properties of the conversion of the headers *)

Lemma canonicalize_cons (upper : bool) (c : ascii) (s : string) :
  textproto.canonicalize upper (String c s)
  = String (canon_byte upper c)
      (textproto.canonicalize (Ascii.eqb (canon_byte upper c) "-"%char) s).
Proof. reflexivity. Qed.

Lemma canon_byte_fixed (upper : bool) (c : ascii) :
  canon_byte upper (canon_byte upper c) = canon_byte upper c.
Proof. by destruct upper, c as [[] [] [] [] [] [] [] []]. Qed.

Lemma canon_byte_valid (upper : bool) (c : ascii) :
  textproto.validHeaderFieldByte (canon_byte upper c)
  = textproto.validHeaderFieldByte c.
Proof. by destruct upper, c as [[] [] [] [] [] [] [] []]. Qed.

Lemma canonicalize_fixed (upper : bool) (s : string) :
  textproto.canonicalize upper (textproto.canonicalize upper s)
  = textproto.canonicalize upper s
  ∧ textproto.all_valid (textproto.canonicalize upper s)
    = textproto.all_valid s.
Proof.
  revert upper. induction s as [|c s IH]; intros upper; [done|].
  rewrite !canonicalize_cons, canon_byte_fixed.
  destruct (IH (Ascii.eqb (canon_byte upper c) "-"%char)) as [-> Hv].
  split; [done|]. cbn [textproto.all_valid].
  by rewrite canon_byte_valid, Hv.
Qed.

(** A canonical key is its own canonical form. *)
Lemma CanonicalMIMEHeaderKey_fixed (s : string) :
  textproto.CanonicalMIMEHeaderKey (textproto.CanonicalMIMEHeaderKey s)
  = textproto.CanonicalMIMEHeaderKey s.
Proof.
  unfold textproto.CanonicalMIMEHeaderKey.
  destruct (textproto.all_valid s) eqn:Hv; [|by rewrite Hv].
  destruct (canonicalize_fixed true s) as [He Hv'].
  by rewrite Hv', Hv, He.
Qed.

(** X13: the converted header map has an entry under a name exactly
    when some header of the request has that name as its canonical form,
    and every key of the map is in canonical form, so that a lookup
    under a canonical name, as the negotiation of the content type does
    it, finds the header however the request spelled its name. *)
Theorem converted_keys_canonical (ctx : fasthttp.RequestCtx) (name : string) :
  (is_Some (convert_header ctx !! name)
   ↔ ∃ kv, kv ∈ fasthttp.Header (fasthttp.Request_ ctx)
           ∧ textproto.CanonicalMIMEHeaderKey kv.1 = name)
  ∧ (is_Some (convert_header ctx !! name) →
     textproto.CanonicalMIMEHeaderKey name = name).
Proof.
  destruct ctx as [[h]]. cbn [fasthttp.Header fasthttp.Request_].
  change (fasthttp.mkRequestCtx (fasthttp.mkRequest h)) with (Sample.ctx h).
  rewrite convert_header_lookup.
  assert (is_Some
            ((λ kv : string * string, [kv.2])
               <$> last (filter
                           (λ kv, textproto.CanonicalMIMEHeaderKey kv.1 = name)
                           h))
          ↔ ∃ kv, kv ∈ h ∧ textproto.CanonicalMIMEHeaderKey kv.1 = name)
    as Hiff.
  { rewrite fmap_is_Some, last_is_Some. split.
    - intros Hne.
      destruct (filter _ h) as [|kv l] eqn:Hf; [done|].
      assert (kv ∈ filter
                (λ kv, textproto.CanonicalMIMEHeaderKey kv.1 = name) h)
        as Hin by (rewrite Hf; apply list_elem_of_here).
      apply list_elem_of_filter in Hin as [? ?]. eauto.
    - intros (kv & Hin & Hname) Hnil.
      assert (kv ∈ filter
                (λ kv, textproto.CanonicalMIMEHeaderKey kv.1 = name) h)
        as Hin' by (apply list_elem_of_filter; auto).
      rewrite Hnil in Hin'. by apply elem_of_nil in Hin'. }
  split; [exact Hiff|].
  intros (kv & _ & <-)%Hiff. apply CanonicalMIMEHeaderKey_fixed.
Qed.

(** ** The default handler *)

Section DefaultHandler.

Context {MetricFamily : Type}.
Variable Negotiate : http.Header → Format.
Variable encode : Format → MetricFamily → list byte * option error.
Variable deflate : list byte → list byte.

(** X14: [FastHttpHandler] does what its comment says: it logs nothing,
    it never panics, it compresses when the client asks for it, and it
    reports the first error as an HTTP error: the success response is
    committed exactly when neither [Gather] nor an encoder returns an
    error, and else the response is one error response of status 500. *)
Theorem default_handler_reports_first_error
    (DefaultGatherer : Gatherer MetricFamily) (ctx : fasthttp.RequestCtx) :
  let r := FastHttpHandler Negotiate encode deflate DefaultGatherer ctx start in
  let ct := Negotiate (convert_header ctx) in
  let decorated := decorateFastHttpWriter ctx BufferWriter false in
  let mfs := (Gather DefaultGatherer).1 in
  log_lines (trace r.2) = []
  ∧ (∀ v, r.1 ≠ Panic v)
  ∧ (r.1 = Next ()
     ↔ (Gather DefaultGatherer).2 = None
       ∧ first_encode_error encode ct mfs = None)
  ∧ match r.1 with
    | Next _ =>
        responder_ops (trace r.2)
        = success_response ct decorated.2
            (finalized deflate decorated.1 (payload encode ct mfs))
    | _ => ∃ msg, responder_ops (trace r.2) = [CtxError msg 500]
    end.
Proof.
  intros r ct decorated mfs.
  set (opts := mkHandlerOpts false HTTPErrorOnError false).
  change r with (serve Negotiate encode deflate ctx DefaultGatherer opts).
  clear r.
  pose proof (serve_summary Negotiate encode deflate ctx DefaultGatherer opts)
    as H.
  cbn zeta in H. fold ct mfs in H.
  change (decorateFastHttpWriter ctx BufferWriter (DisableCompression opts))
    with decorated in H.
  split.
  { rewrite serve_trace.
    exact (run_logged Negotiate encode deflate ctx DefaultGatherer opts). }
  split.
  { intros v Hv. rewrite Hv in H. by destruct H. }
  split.
  - split.
    + intros Ho. rewrite Ho in H. destruct H as (Hgo & Hf & _).
      split; [by destruct Hgo as [?|[? _]]|]. by apply Hf.
    + intros [Hg Hf].
      destruct (Gather DefaultGatherer) as [mfs' err] eqn:HG.
      cbn [fst snd] in *. subst err mfs.
      exact (proj1 (no_error_commits Negotiate encode deflate ctx
                      DefaultGatherer opts mfs' HG Hf)).
  - destruct (serve Negotiate encode deflate ctx DefaultGatherer opts).1
      as [[]| |v].
    + by destruct H as (_ & _ & _ & H).
    + by destruct H.
    + by destruct H.
Qed.

End DefaultHandler.

(** ** Concrete runs for the further properties *)

Lemma clean_run_commits_witness :
  let mfs := [Sample.Good "up 1"; Sample.Good "down 0"] in
  let reg := mkGatherer (mfs, None) in
  let opts := Sample.with_log PanicOnError in
  let r := Sample.handle Sample.gzip_accepted (Gather reg) opts in
  let ct := "text/plain; version=0.0.4" in
  Gather reg = (mfs, None)
  ∧ first_encode_error Sample.encode ct mfs = None
  ∧ r.1 = Next ()
  ∧ encoded_families (trace r.2) = mfs
  ∧ responder_ops (trace r.2)
    = success_response ct "gzip"
        (gzip_member Sample.deflate (payload Sample.encode ct mfs))
  ∧ log_lines (trace r.2) = []
  ∧ pool_ops (trace r.2) = [GetBuf; GiveBuf].
Proof.
  intros mfs reg opts r ct.
  split; [reflexivity|]. split; [reflexivity|].
  exact (clean_run_commits Sample.Negotiate Sample.encode Sample.deflate
           (Sample.ctx Sample.gzip_accepted) reg opts mfs eq_refl eq_refl).
Defined.

Lemma panics_with_first_error_witness :
  let mfs := [Sample.Good "up 1"; Sample.Broken "do"; Sample.Empty] in
  let reg := mkGatherer (mfs, None) in
  let opts := Sample.with_log PanicOnError in
  let r := Sample.handle [] (Gather reg) opts in
  ErrorHandling opts = PanicOnError
  ∧ (Gather reg).2 = None
  ∧ first_encode_error Sample.encode "text/plain; version=0.0.4" mfs
    = Some "unexpected type in metric"
  ∧ r.1 = Panic "unexpected type in metric"
  ∧ responder_ops (trace r.2) = [].
Proof.
  intros mfs reg opts r.
  split; [reflexivity|]. split; [reflexivity|]. split; [reflexivity|].
  exact (panics_with_first_error Sample.Negotiate Sample.encode
           Sample.deflate (Sample.ctx []) reg opts
           "unexpected type in metric" eq_refl
           (or_intror (conj eq_refl eq_refl))).
Defined.

Lemma panics_only_when_asked_witness :
  let opts := Sample.no_log PanicOnError in
  let r := Sample.handle [] ([Sample.Good "up 1"], Some "collector failed")
             opts in
  r.1 = Panic "collector failed" ∧ ErrorHandling opts = PanicOnError.
Proof.
  intros opts r. split; [reflexivity|].
  exact (panics_only_when_asked Sample.Negotiate Sample.encode Sample.deflate
           (Sample.ctx [])
           (mkGatherer ([Sample.Good "up 1"], Some "collector failed"))
           opts "collector failed" eq_refl).
Defined.

Lemma success_means_no_error_witness :
  let mfs := [Sample.Good "up 1"] in
  let reg := mkGatherer (mfs, None) in
  let opts := Sample.no_log HTTPErrorOnError in
  let r := Sample.handle [] (Gather reg) opts in
  ErrorHandling opts ≠ ContinueOnError
  ∧ r.1 = Next ()
  ∧ (Gather reg).2 = None
  ∧ first_encode_error Sample.encode "text/plain; version=0.0.4" mfs = None
  ∧ encoded_families (trace r.2) = mfs.
Proof.
  intros mfs reg opts r.
  assert (ErrorHandling opts ≠ ContinueOnError) as Hn by discriminate.
  split; [exact Hn|]. split; [reflexivity|].
  exact (success_means_no_error Sample.Negotiate Sample.encode Sample.deflate
           (Sample.ctx []) reg opts Hn eq_refl).
Defined.

Lemma continue_logs_every_failure_witness :
  let mfs := [Sample.Empty; Sample.Good "up 1"; Sample.Broken "do"] in
  let reg := mkGatherer (mfs, Some "collector failed") in
  let opts := Sample.with_log ContinueOnError in
  let r := Sample.handle [] (Gather reg) opts in
  ErrorHandling opts = ContinueOnError
  ∧ ErrorLog opts = true
  ∧ mfs ≠ []
  ∧ log_lines (trace r.2)
    = [ ("error gathering metrics:", "collector failed");
        ("error encoding metric family:", "MetricFamily has no metrics");
        ("error encoding metric family:", "unexpected type in metric") ].
Proof.
  intros mfs reg opts r.
  assert (mfs ≠ []) as Hne by discriminate.
  split; [reflexivity|]. split; [reflexivity|]. split; [exact Hne|].
  exact (continue_logs_every_failure Sample.Negotiate Sample.encode
           Sample.deflate (Sample.ctx []) reg opts mfs
           (Some "collector failed") eq_refl eq_refl eq_refl
           (or_intror Hne)).
Defined.

Lemma plain_empty_buffer_is_error_witness :
  let mfs := [Sample.Empty; Sample.Empty] in
  let reg := mkGatherer (mfs, None) in
  let opts := Sample.no_log ContinueOnError in
  let r := Sample.handle [] (Gather reg) opts in
  let ct := "text/plain; version=0.0.4" in
  ErrorHandling opts = ContinueOnError
  ∧ decorateFastHttpWriter (Sample.ctx []) BufferWriter
      (DisableCompression opts) = (BufferWriter, "")
  ∧ last_encode_error Sample.encode ct mfs
    = Some "MetricFamily has no metrics"
  ∧ payload Sample.encode ct mfs = []
  ∧ r.1 = Return
  ∧ responder_ops (trace r.2)
    = [CtxError ("No metrics encoded, last error:" +:+ nl +:+ nl
                   +:+ "MetricFamily has no metrics") 500].
Proof.
  intros mfs reg opts r ct.
  split; [reflexivity|]. split; [reflexivity|].
  split; [reflexivity|]. split; [reflexivity|].
  exact (plain_empty_buffer_is_error Sample.Negotiate Sample.encode
           Sample.deflate (Sample.ctx []) reg opts mfs None
           "MetricFamily has no metrics" eq_refl eq_refl
           (or_introl eq_refl) eq_refl eq_refl eq_refl).
Defined.

Lemma nothing_logged_without_sink_witness :
  let opts := Sample.no_log ContinueOnError in
  let r := Sample.handle []
             ([Sample.Empty; Sample.Broken "do"], Some "collector failed")
             opts in
  ErrorLog opts = false
  ∧ length (errors_met (trace r.2)) = 3%nat
  ∧ log_lines (trace r.2) = [].
Proof.
  intros opts r. split; [reflexivity|]. split; [reflexivity|].
  exact (nothing_logged_without_sink Sample.Negotiate Sample.encode
           Sample.deflate (Sample.ctx [])
           (mkGatherer ([Sample.Empty; Sample.Broken "do"],
                        Some "collector failed"))
           opts eq_refl).
Defined.

Lemma no_accept_encoding_no_gzip_witness :
  let h := [("Accept", "text/plain"); ("User-Agent", "gzip")] in
  Forall (λ kv, kv.1 ≠ "Accept-Encoding") h
  ∧ decorateFastHttpWriter (request h) BufferWriter false
    = (BufferWriter, "").
Proof.
  intros h.
  assert (Forall (λ kv, kv.1 ≠ "Accept-Encoding") h) as Habs.
  { repeat constructor; discriminate. }
  split; [exact Habs|].
  exact (no_accept_encoding_no_gzip (request h) BufferWriter false Habs).
Defined.

Lemma first_accept_encoding_decides_witness :
  let pre := [("Accept", "text/plain")] in
  let post := [("Accept-Encoding", "gzip")] in
  Forall (λ kv, kv.1 ≠ "Accept-Encoding") pre
  ∧ decorateFastHttpWriter
      (request (pre ++ ("Accept-Encoding", "identity") :: post))
      BufferWriter false
    = decorateFastHttpWriter
        (request [("Accept-Encoding", "identity")]) BufferWriter false
  ∧ decorateFastHttpWriter
      (request [("Accept-Encoding", "identity")]) BufferWriter false
    = (BufferWriter, "").
Proof.
  intros pre post.
  assert (Forall (λ kv, kv.1 ≠ "Accept-Encoding") pre) as Hpre.
  { repeat constructor; discriminate. }
  split; [exact Hpre|]. split; [|reflexivity].
  exact (first_accept_encoding_decides pre post "identity" BufferWriter false
           Hpre).
Defined.

Lemma converted_keys_canonical_witness :
  let ctx := request [("accept", "text/plain"); ("X-a b", "1")] in
  is_Some (convert_header ctx !! "Accept")
  ∧ textproto.CanonicalMIMEHeaderKey "Accept" = "Accept"
  ∧ ∃ kv, kv ∈ fasthttp.Header (fasthttp.Request_ ctx)
          ∧ textproto.CanonicalMIMEHeaderKey kv.1 = "Accept".
Proof.
  intros ctx.
  assert (is_Some (convert_header ctx !! "Accept")) as Hs by (by eexists).
  destruct (converted_keys_canonical ctx "Accept") as [Hiff Hcanon].
  split; [exact Hs|]. split; [exact (Hcanon Hs) | exact (proj1 Hiff Hs)].
Defined.
